(** * covoiturage-ci: reservation lifecycle and seat inventory

    A shallow embedding of the models and services of the backend
    (src/backend/src/models/{trip,reservation,user}.py and
    src/backend/src/services/{trip,reservation}.py), and the properties of
    the reservation lifecycle established on it.

    Conventions of the embedding:
    - Python [int] is [Z]; Python [float] (and the SQL Float columns) is the
      binary64 type [float] of the kernel, with the same rounding.
    - A SQLAlchemy table is a finite map from primary key to row; an ORM
      object is the row stored under its key, so a mutation of the object is
      a mutation of the row.  [db.commit()] and [db.refresh()] are the
      identity on this state.
    - Methods and services run in a state-and-exception monad: the state is
      the object ([self]) for model methods and the database for services.
      The state returned next to an exception is the state at the [raise].
    - [datetime.now(timezone.utc)] is the instant [now] handed to the
      operation, and so is a SQL [func.now()] assigned to a column (the
      database evaluates it at the commit).  A [func.now()] compared in
      Python is a clause, not an instant: see [Trip.is_bookable].
    - Columns that no guard reads and no operation writes (addresses,
      coordinates, vehicle description, ...) are left out of the records. *)

From Stdlib Require Import ZArith Lia.
From Stdlib Require Import PrimFloat SpecFloat FloatOps.
From stdpp Require Import gmap strings.

Local Open Scope Z_scope.
#[local] Set Warnings "-inexact-float".

(** ** Exceptions and the state-and-exception monad *)

(** fastapi.status codes used by the services. *)
Definition HTTP_400_BAD_REQUEST : Z := 400.
Definition HTTP_403_FORBIDDEN : Z := 403.
Definition HTTP_404_NOT_FOUND : Z := 404.

Inductive Exception : Type :=
| HTTPException (status_code : Z)
| AttributeError      (* attribute access on [None] *)
| ZeroDivisionError
| TypeError.          (* truth value of a SQL clause *)

Inductive Result (A : Type) : Type :=
| Ok (a : A)
| Raised (e : Exception).
Arguments Ok {A} a.
Arguments Raised {A} e.

Definition M (S A : Type) : Type := S -> Result A * S.

Definition ret {S A : Type} (a : A) : M S A := fun s => (Ok a, s).

Definition raise {S A : Type} (e : Exception) : M S A := fun s => (Raised e, s).

Definition bind {S A B : Type} (m : M S A) (k : A -> M S B) : M S B :=
  fun s =>
    match m s with
    | (Ok a, s') => k a s'
    | (Raised e, s') => (Raised e, s')
    end.

Definition get {S : Type} : M S S := fun s => (Ok s, s).

Definition modify {S : Type} (f : S -> S) : M S unit := fun s => (Ok tt, f s).

Notation "x <- m ;; k" := (bind m (fun x => k))
  (at level 100, m at next level, right associativity).
Notation "m ;;; k" := (bind m (fun _ => k))
  (at level 100, right associativity).

(** [if cond: raise e] *)
Definition raise_if {S : Type} (cond : Prop) `{!Decision cond} (e : Exception) : M S unit :=
  if decide cond then raise e else ret tt.

(** [if cond: body] *)
Definition when {S : Type} (cond : Prop) `{!Decision cond} (body : M S unit) : M S unit :=
  if decide cond then body else ret tt.

#[global] Instance nat_ge_dec (x y : nat) : Decision (x >= y)%nat :=
  decide (y <= x)%nat.

(** Python's conversion of an [int] operand in mixed arithmetic: the
    nearest binary64 value, ties to even.  (Beyond the binary64 range Python
    raises OverflowError where this gives an infinity; no Integer column
    holds such a value.) *)
Definition float_of_int (z : Z) : float :=
  SF2Prim (binary_normalize prec emax z 0 false).

(** Truth value of an [Optional[str]]: [None] and the empty string are false. *)
Definition truthy (s : option string) : Prop :=
  match s with
  | Some x => x <> EmptyString
  | None => False
  end.

#[global] Instance truthy_dec (s : option string) : Decision (truthy s).
Proof. destruct s as [x|]; simpl; [apply _ | right; tauto]. Defined.

(** ** models/trip.py *)

Module TripStatus.
Inductive t : Set := ACTIVE | FULL | STARTED | COMPLETED | CANCELLED.
#[global] Instance eq_dec : EqDecision t.
Proof. solve_decision. Defined.
End TripStatus.

Module Trip.
Import TripStatus.

Record t : Type := mk {
  id : Z;
  driver_id : Z;
  departure_datetime : Z;
  total_seats : Z;
  available_seats : Z;
  price_per_seat : float;
  status : TripStatus.t
}.

Definition set_available_seats (v : Z) (self : t) : t :=
  mk (id self) (driver_id self) (departure_datetime self) (total_seats self)
     v (price_per_seat self) (status self).

Definition set_status (v : TripStatus.t) (self : t) : t :=
  mk (id self) (driver_id self) (departure_datetime self) (total_seats self)
     (available_seats self) (price_per_seat self) v.

(** [self.departure_datetime > func.now()] on a loaded row compares a
    [datetime] with a SQL function element: Python does not decide it, the
    reflected operator of SQLAlchemy builds the clause
    [now() < :departure_datetime]. *)
Inductive Clause : Type :=
| DepartsAfterNow (departure_datetime : Z).

(** What an [and] chain that ends in such a comparison evaluates to. *)
Inductive BoolOrClause : Type :=
| PyBool (b : bool)
| PyClause (c : Clause).

(** [a and b] for a Boolean [a]: [a] itself when it is false, else [b]. *)
Definition py_and (a : bool) (b : BoolOrClause) : BoolOrClause :=
  if a then b else PyBool false.

(** The truth value that [if] and [and] ask of a value: an ordering clause
    has none, SQLAlchemy raises [TypeError]. *)
Definition truth {S : Type} (v : BoolOrClause) : M S bool :=
  match v with
  | PyBool b => ret b
  | PyClause _ => raise TypeError
  end.

(** property [is_bookable] *)
Definition is_bookable (self : t) : BoolOrClause :=
  py_and (bool_decide (status self = ACTIVE))
    (py_and (bool_decide (available_seats self > 0))
       (PyClause (DepartsAfterNow (departure_datetime self)))).

(** [self.available_seats >= passenger_count and self.is_bookable], as the
    [if] of [book_seat] tests it: the property is read only when the first
    comparison holds. *)
Definition book_seat (passenger_count : Z) : M t bool :=
  self <- get ;;
  possible <- (if decide (available_seats self >= passenger_count)
               then truth (is_bookable self)
               else ret false) ;;
  if possible then
    modify (set_available_seats (available_seats self - passenger_count)) ;;;
    self <- get ;;
    when (available_seats self = 0) (modify (set_status FULL)) ;;;
    ret true
  else ret false.


End Trip.

(** ** models/user.py *)

Module UserType.
Inductive t : Set := PASSAGER | CONDUCTEUR | BOTH.
#[global] Instance eq_dec : EqDecision t.
Proof. solve_decision. Defined.
End UserType.

Module UserStatus.
Inductive t : Set := PENDING | VERIFIED | SUSPENDED | BANNED.
#[global] Instance eq_dec : EqDecision t.
Proof. solve_decision. Defined.
End UserStatus.

Module User.
Import UserType UserStatus.

Record t : Type := mk {
  id : Z;
  is_active : bool;
  is_phone_verified : bool;
  user_type : UserType.t;
  status : UserStatus.t;
  driver_license_verified : bool;
  rating_average : float;
  total_ratings : Z;
  trips_as_driver : Z;
  trips_as_passenger : Z
}.

Definition set_rating_average (v : float) (self : t) : t :=
  mk (id self) (is_active self) (is_phone_verified self) (user_type self)
     (status self) (driver_license_verified self) v (total_ratings self)
     (trips_as_driver self) (trips_as_passenger self).

Definition set_total_ratings (v : Z) (self : t) : t :=
  mk (id self) (is_active self) (is_phone_verified self) (user_type self)
     (status self) (driver_license_verified self) (rating_average self) v
     (trips_as_driver self) (trips_as_passenger self).

Definition set_trips_as_driver (v : Z) (self : t) : t :=
  mk (id self) (is_active self) (is_phone_verified self) (user_type self)
     (status self) (driver_license_verified self) (rating_average self)
     (total_ratings self) v (trips_as_passenger self).

(** property [is_driver] *)
Definition is_driver (self : t) : Prop := user_type self ∈ [CONDUCTEUR; BOTH].

(** property [is_verified] *)
Definition is_verified (self : t) : Prop :=
  let basic_verified := is_phone_verified self = true /\ status self = VERIFIED in
  if decide (is_driver self)
  then basic_verified /\ driver_license_verified self = true
  else basic_verified.

#[global] Instance is_driver_dec self : Decision (is_driver self).
Proof. unfold is_driver. apply _. Defined.

#[global] Instance is_verified_dec self : Decision (is_verified self).
Proof. unfold is_verified. destruct (decide (is_driver self)); apply _. Defined.

Definition can_create_trip (self : t) : Prop :=
  is_driver self /\ is_verified self /\ status self = VERIFIED /\ is_active self = true.

#[global] Instance can_create_trip_dec self : Decision (can_create_trip self).
Proof. unfold can_create_trip. apply _. Defined.

(** [total_ratings] is incremented before the division, so a division by
    zero leaves the incremented counter behind. *)
Definition update_rating (new_rating : float) : M t unit :=
  self <- get ;;
  let total_score := (rating_average self * float_of_int (total_ratings self))%float in
  modify (set_total_ratings (total_ratings self + 1)) ;;;
  self <- get ;;
  if decide (total_ratings self = 0) then raise ZeroDivisionError
  else modify (set_rating_average
                 ((total_score + new_rating) / float_of_int (total_ratings self))%float).

Definition set_trips_as_passenger (v : Z) (self : t) : t :=
  mk (id self) (is_active self) (is_phone_verified self) (user_type self)
     (status self) (driver_license_verified self) (rating_average self)
     (total_ratings self) (trips_as_driver self) v.

(** property [is_passenger] *)
Definition is_passenger (self : t) : Prop := user_type self ∈ [PASSAGER; BOTH].

#[global] Instance is_passenger_dec self : Decision (is_passenger self).
Proof. unfold is_passenger. apply _. Defined.

Definition can_book_trip (self : t) : Prop :=
  is_passenger self /\ is_phone_verified self = true /\
  status self ∈ [VERIFIED; PENDING] /\ is_active self = true.

#[global] Instance can_book_trip_dec self : Decision (can_book_trip self).
Proof. unfold can_book_trip. apply _. Defined.

End User.

(** ** models/reservation.py *)

Module ReservationStatus.
Inductive t : Set :=
| PENDING | CONFIRMED | PAID | STARTED | COMPLETED
| CANCELLED_BY_PASSENGER | CANCELLED_BY_DRIVER | NO_SHOW.
#[global] Instance eq_dec : EqDecision t.
Proof. solve_decision. Defined.
End ReservationStatus.

Module PaymentStatus.
Inductive t : Set := PENDING | COMPLETED | FAILED | REFUNDED.
#[global] Instance eq_dec : EqDecision t.
Proof. solve_decision. Defined.
End PaymentStatus.

Module PaymentMethod.
Inductive t : Set := CASH | MOBILE_MONEY | CARD.
#[global] Instance eq_dec : EqDecision t.
Proof. solve_decision. Defined.
End PaymentMethod.

Module Reservation.
Import ReservationStatus.

Record t : Type := mk {
  id : Z;
  trip_id : Z;
  passenger_id : Z;
  number_of_seats : Z;
  actual_pickup_time : option Z;
  actual_dropoff_time : option Z;
  status : ReservationStatus.t;
  total_price : float;
  price_per_seat : float;
  platform_fee : float;
  payment_status : PaymentStatus.t;
  driver_notes : option string;
  passenger_rating : option Z;
  driver_rating : option Z;
  passenger_comment : option string;
  driver_comment : option string;
  confirmed_at : option Z;
  cancelled_at : option Z;
  cancellation_reason : option string
}.

Definition set_actual_pickup_time (v : option Z) (self : t) : t :=
  mk (id self) (trip_id self) (passenger_id self) (number_of_seats self) v
     (actual_dropoff_time self) (status self) (total_price self)
     (price_per_seat self) (platform_fee self) (payment_status self)
     (driver_notes self) (passenger_rating self) (driver_rating self)
     (passenger_comment self) (driver_comment self) (confirmed_at self)
     (cancelled_at self) (cancellation_reason self).

Definition set_status (v : ReservationStatus.t) (self : t) : t :=
  mk (id self) (trip_id self) (passenger_id self) (number_of_seats self)
     (actual_pickup_time self) (actual_dropoff_time self) v (total_price
     self) (price_per_seat self) (platform_fee self) (payment_status self)
     (driver_notes self) (passenger_rating self) (driver_rating self)
     (passenger_comment self) (driver_comment self) (confirmed_at self)
     (cancelled_at self) (cancellation_reason self).

Definition set_driver_notes (v : option string) (self : t) : t :=
  mk (id self) (trip_id self) (passenger_id self) (number_of_seats self)
     (actual_pickup_time self) (actual_dropoff_time self) (status self)
     (total_price self) (price_per_seat self) (platform_fee self)
     (payment_status self) v (passenger_rating self) (driver_rating self)
     (passenger_comment self) (driver_comment self) (confirmed_at self)
     (cancelled_at self) (cancellation_reason self).

Definition set_passenger_rating (v : option Z) (self : t) : t :=
  mk (id self) (trip_id self) (passenger_id self) (number_of_seats self)
     (actual_pickup_time self) (actual_dropoff_time self) (status self)
     (total_price self) (price_per_seat self) (platform_fee self)
     (payment_status self) (driver_notes self) v (driver_rating self)
     (passenger_comment self) (driver_comment self) (confirmed_at self)
     (cancelled_at self) (cancellation_reason self).

Definition set_driver_rating (v : option Z) (self : t) : t :=
  mk (id self) (trip_id self) (passenger_id self) (number_of_seats self)
     (actual_pickup_time self) (actual_dropoff_time self) (status self)
     (total_price self) (price_per_seat self) (platform_fee self)
     (payment_status self) (driver_notes self) (passenger_rating self) v
     (passenger_comment self) (driver_comment self) (confirmed_at self)
     (cancelled_at self) (cancellation_reason self).

Definition set_passenger_comment (v : option string) (self : t) : t :=
  mk (id self) (trip_id self) (passenger_id self) (number_of_seats self)
     (actual_pickup_time self) (actual_dropoff_time self) (status self)
     (total_price self) (price_per_seat self) (platform_fee self)
     (payment_status self) (driver_notes self) (passenger_rating self)
     (driver_rating self) v (driver_comment self) (confirmed_at self)
     (cancelled_at self) (cancellation_reason self).

Definition set_driver_comment (v : option string) (self : t) : t :=
  mk (id self) (trip_id self) (passenger_id self) (number_of_seats self)
     (actual_pickup_time self) (actual_dropoff_time self) (status self)
     (total_price self) (price_per_seat self) (platform_fee self)
     (payment_status self) (driver_notes self) (passenger_rating self)
     (driver_rating self) (passenger_comment self) v (confirmed_at self)
     (cancelled_at self) (cancellation_reason self).

Definition set_confirmed_at (v : option Z) (self : t) : t :=
  mk (id self) (trip_id self) (passenger_id self) (number_of_seats self)
     (actual_pickup_time self) (actual_dropoff_time self) (status self)
     (total_price self) (price_per_seat self) (platform_fee self)
     (payment_status self) (driver_notes self) (passenger_rating self)
     (driver_rating self) (passenger_comment self) (driver_comment self) v
     (cancelled_at self) (cancellation_reason self).

Definition set_cancelled_at (v : option Z) (self : t) : t :=
  mk (id self) (trip_id self) (passenger_id self) (number_of_seats self)
     (actual_pickup_time self) (actual_dropoff_time self) (status self)
     (total_price self) (price_per_seat self) (platform_fee self)
     (payment_status self) (driver_notes self) (passenger_rating self)
     (driver_rating self) (passenger_comment self) (driver_comment self)
     (confirmed_at self) v (cancellation_reason self).

Definition set_cancellation_reason (v : option string) (self : t) : t :=
  mk (id self) (trip_id self) (passenger_id self) (number_of_seats self)
     (actual_pickup_time self) (actual_dropoff_time self) (status self)
     (total_price self) (price_per_seat self) (platform_fee self)
     (payment_status self) (driver_notes self) (passenger_rating self)
     (driver_rating self) (passenger_comment self) (driver_comment self)
     (confirmed_at self) (cancelled_at self) v.

(** property [can_be_cancelled] *)
Definition can_be_cancelled (self : t) : Prop :=
  status self ∈ [PENDING; CONFIRMED; PAID].

(** property [can_be_rated] *)
Definition can_be_rated (self : t) : Prop := status self = COMPLETED.

(** property [is_active] *)
Definition is_active (self : t) : Prop :=
  status self ∈ [PENDING; CONFIRMED; PAID; STARTED].

#[global] Instance can_be_cancelled_dec self : Decision (can_be_cancelled self).
Proof. unfold can_be_cancelled. apply _. Defined.

#[global] Instance can_be_rated_dec self : Decision (can_be_rated self).
Proof. unfold can_be_rated. apply _. Defined.

#[global] Instance is_active_dec self : Decision (is_active self).
Proof. unfold is_active. apply _. Defined.

Definition start_trip (now : Z) : M t bool :=
  self <- get ;;
  if decide (status self = PAID) then
    modify (set_status STARTED) ;;;
    modify (set_actual_pickup_time (Some now)) ;;;
    ret true
  else ret false.

Definition rate_driver (rating : Z) (comment : option string) : M t bool :=
  self <- get ;;
  if decide (can_be_rated self /\ 1 <= rating <= 5) then
    modify (set_driver_rating (Some rating)) ;;;
    modify (set_passenger_comment comment) ;;;
    ret true
  else ret false.

Definition rate_passenger (rating : Z) (comment : option string) : M t bool :=
  self <- get ;;
  if decide (can_be_rated self /\ 1 <= rating <= 5) then
    modify (set_passenger_rating (Some rating)) ;;;
    modify (set_driver_comment comment) ;;;
    ret true
  else ret false.

Definition set_actual_dropoff_time (v : option Z) (self : t) : t :=
  mk (id self) (trip_id self) (passenger_id self) (number_of_seats self)
     (actual_pickup_time self) v (status self) (total_price self)
     (price_per_seat self) (platform_fee self) (payment_status self)
     (driver_notes self) (passenger_rating self) (driver_rating self)
     (passenger_comment self) (driver_comment self) (confirmed_at self)
     (cancelled_at self) (cancellation_reason self).

Definition set_payment_status (v : PaymentStatus.t) (self : t) : t :=
  mk (id self) (trip_id self) (passenger_id self) (number_of_seats self)
     (actual_pickup_time self) (actual_dropoff_time self) (status self)
     (total_price self) (price_per_seat self) (platform_fee self) v
     (driver_notes self) (passenger_rating self) (driver_rating self)
     (passenger_comment self) (driver_comment self) (confirmed_at self)
     (cancelled_at self) (cancellation_reason self).

(** property [can_be_paid] *)
Definition can_be_paid (self : t) : Prop :=
  status self = CONFIRMED /\ payment_status self = PaymentStatus.PENDING.

#[global] Instance can_be_paid_dec self : Decision (can_be_paid self).
Proof. unfold can_be_paid. apply _. Defined.

Definition confirm (now : Z) : M t bool :=
  self <- get ;;
  if decide (status self = PENDING) then
    modify (set_status CONFIRMED) ;;;
    modify (set_confirmed_at (Some now)) ;;;
    ret true
  else ret false.

Definition cancel (reason : option string) (cancelled_by : string) (now : Z) : M t bool :=
  self <- get ;;
  if decide (can_be_cancelled self) then
    (if decide (cancelled_by = "passenger"%string)
     then modify (set_status CANCELLED_BY_PASSENGER)
     else modify (set_status CANCELLED_BY_DRIVER)) ;;;
    modify (set_cancelled_at (Some now)) ;;;
    modify (set_cancellation_reason reason) ;;;
    ret true
  else ret false.

(** The payment columns of a reservation that [Reservation.t] leaves out;
    [mark_as_paid] runs on the object made of both parts. *)
Record PaymentColumns : Type := mkPaymentColumns {
  payment_method : option PaymentMethod.t;
  payment_transaction_id : option string;
  paid_at : option Z
}.

Definition mark_as_paid (transaction_id : option string)
    (method : option PaymentMethod.t) (now : Z) : M (t * PaymentColumns) bool :=
  self <- get ;;
  if decide (can_be_paid self.1) then
    modify (fun s => (set_payment_status PaymentStatus.COMPLETED s.1, s.2)) ;;;
    modify (fun s => (set_status PAID s.1, s.2)) ;;;
    modify (fun s => (s.1, mkPaymentColumns (payment_method s.2)
                             (payment_transaction_id s.2) (Some now))) ;;;
    when (truthy transaction_id)
         (modify (fun s => (s.1, mkPaymentColumns (payment_method s.2)
                                   transaction_id (paid_at s.2)))) ;;;
    when (is_Some method)
         (modify (fun s => (s.1, mkPaymentColumns method
                                   (payment_transaction_id s.2) (paid_at s.2)))) ;;;
    ret true
  else ret false.

Definition complete_trip (now : Z) : M t bool :=
  self <- get ;;
  if decide (status self = STARTED) then
    modify (set_status COMPLETED) ;;;
    modify (set_actual_dropoff_time (Some now)) ;;;
    ret true
  else ret false.

End Reservation.

(** ** The database session *)

(** One table per model, keyed by primary key.  [trip_seq] and
    [reservation_seq] are the keys the next inserted rows receive. *)
Record DB : Type := mkDB {
  users : gmap Z User.t;
  trips : gmap Z Trip.t;
  reservations : gmap Z Reservation.t;
  trip_seq : Z;
  reservation_seq : Z
}.

Definition set_users (v : gmap Z User.t) (db : DB) : DB :=
  mkDB v (trips db) (reservations db) (trip_seq db) (reservation_seq db).

Definition set_trips (v : gmap Z Trip.t) (db : DB) : DB :=
  mkDB (users db) v (reservations db) (trip_seq db) (reservation_seq db).

Definition set_reservations (v : gmap Z Reservation.t) (db : DB) : DB :=
  mkDB (users db) (trips db) v (trip_seq db) (reservation_seq db).

(** Running a piece of code on the ORM object of a row.  A relationship
    whose target row is missing evaluates to [None], and the attribute
    access on it raises. *)
Definition on_user {A : Type} (user_id : Z) (m : M User.t A) : M DB A :=
  fun db =>
    match users db !! user_id with
    | Some u => let '(r, u') := m u in (r, set_users (<[user_id := u']> (users db)) db)
    | None => (Raised AttributeError, db)
    end.

Definition on_trip {A : Type} (trip_id : Z) (m : M Trip.t A) : M DB A :=
  fun db =>
    match trips db !! trip_id with
    | Some t => let '(r, t') := m t in (r, set_trips (<[trip_id := t']> (trips db)) db)
    | None => (Raised AttributeError, db)
    end.

Definition on_reservation {A : Type} (reservation_id : Z) (m : M Reservation.t A) : M DB A :=
  fun db =>
    match reservations db !! reservation_id with
    | Some r => let '(x, r') := m r in
                (x, set_reservations (<[reservation_id := r']> (reservations db)) db)
    | None => (Raised AttributeError, db)
    end.

(** [db.add(row); db.commit(); db.refresh(row)] *)
Definition add_trip (mk_row : Z -> Trip.t) : M DB Trip.t :=
  fun db =>
    let row := mk_row (trip_seq db) in
    (Ok row, mkDB (users db) (<[trip_seq db := row]> (trips db)) (reservations db)
                  (trip_seq db + 1) (reservation_seq db)).

Definition add_reservation (mk_row : Z -> Reservation.t) : M DB Reservation.t :=
  fun db =>
    let row := mk_row (reservation_seq db) in
    (Ok row, mkDB (users db) (trips db) (<[reservation_seq db := row]> (reservations db))
                  (trip_seq db) (reservation_seq db + 1)).

(** ** services/trip.py *)

Module TripService.
Import TripStatus.

(** The entries of [trip_data] that the lifecycle depends on. *)
Record TripData : Type := mkTripData {
  td_departure_datetime : Z;
  td_available_seats : Z;
  td_price_per_seat : float
}.

(** [db.query(Trip).filter(Trip.driver_id == driver.id,
     Trip.status.in_([ACTIVE, FULL])).count()] *)
Definition active_trips_count (driver_id : Z) (db : DB) : nat :=
  size (filter (fun kt : Z * Trip.t =>
                  Trip.driver_id kt.2 = driver_id /\ Trip.status kt.2 ∈ [ACTIVE; FULL])
               (trips db)).

Definition create_trip (trip_data : TripData) (driver : User.t) : M DB Trip.t :=
  raise_if (~ User.can_create_trip driver) (HTTPException HTTP_403_FORBIDDEN) ;;;
  db <- get ;;
  let active_trips_count := active_trips_count (User.id driver) db in
  raise_if (active_trips_count >= 5)%nat (HTTPException HTTP_400_BAD_REQUEST) ;;;
  new_trip <- add_trip (fun new_id =>
    Trip.mk new_id (User.id driver) (td_departure_datetime trip_data)
            (td_available_seats trip_data) (td_available_seats trip_data)
            (td_price_per_seat trip_data) ACTIVE) ;;
  modify (fun db => set_users
            (alter (fun u => User.set_trips_as_driver (User.trips_as_driver u + 1) u)
                   (User.id driver) (users db)) db) ;;;
  ret new_trip.

Definition get_trip_by_id (trip_id : Z) : M DB Trip.t :=
  db <- get ;;
  match trips db !! trip_id with
  | None => raise (HTTPException HTTP_404_NOT_FOUND)
  | Some trip => ret trip
  end.

(** The stamp [actual_departure_time] is a column left out of [Trip.t]. *)
Definition mark_trip_as_started (trip_id : Z) (driver : User.t) : M DB Trip.t :=
  trip <- get_trip_by_id trip_id ;;
  raise_if (Trip.driver_id trip <> User.id driver) (HTTPException HTTP_403_FORBIDDEN) ;;;
  raise_if (~ Trip.status trip ∈ [ACTIVE; FULL]) (HTTPException HTTP_400_BAD_REQUEST) ;;;
  on_trip trip_id (modify (Trip.set_status STARTED)) ;;;
  on_trip trip_id get.

(** The stamps [cancelled_at] and [cancellation_reason] of the trip are
    columns left out of [Trip.t]. *)
Definition cancel_trip (trip_id : Z) (driver : User.t) (reason : string) : M DB Trip.t :=
  trip <- get_trip_by_id trip_id ;;
  raise_if (Trip.driver_id trip <> User.id driver) (HTTPException HTTP_403_FORBIDDEN) ;;;
  raise_if (~ Trip.status trip ∈ [ACTIVE; FULL]) (HTTPException HTTP_400_BAD_REQUEST) ;;;
  on_trip trip_id (modify (Trip.set_status CANCELLED)) ;;;
  on_trip trip_id get.

End TripService.

(** ** services/reservation.py *)

Module ReservationService.
Import ReservationStatus.

(** The entries of [reservation_data] that the lifecycle depends on;
    [number_of_seats] is read with [.get("number_of_seats", 1)]. *)
Record ReservationData : Type := mkReservationData {
  rd_number_of_seats : option Z
}.

(** [db.query(Reservation).filter(trip_id == .., passenger_id == ..,
     status.in_([PENDING, CONFIRMED, PAID, STARTED])).first()] *)
Definition existing_reservation (trip_id passenger_id : Z) (db : DB)
  : option Reservation.t :=
  head (map_to_list
          (filter (fun kr : Z * Reservation.t =>
                     Reservation.trip_id kr.2 = trip_id /\
                     Reservation.passenger_id kr.2 = passenger_id /\
                     Reservation.status kr.2 ∈ [PENDING; CONFIRMED; PAID; STARTED])
                  (reservations db))).*2.

Definition create_reservation (reservation_data : ReservationData)
    (passenger : User.t) (trip_id : Z) (now : Z) : M DB Reservation.t :=
  trip <- TripService.get_trip_by_id trip_id ;;
  raise_if (User.is_phone_verified passenger <> true)
           (HTTPException HTTP_403_FORBIDDEN) ;;;
  raise_if (Trip.driver_id trip = User.id passenger)
           (HTTPException HTTP_400_BAD_REQUEST) ;;;
  raise_if (Trip.status trip <> TripStatus.ACTIVE \/
            Trip.available_seats trip <= 0 \/
            Trip.departure_datetime trip <= now)
           (HTTPException HTTP_400_BAD_REQUEST) ;;;
  let seats_requested := default 1 (rd_number_of_seats reservation_data) in
  raise_if (Trip.available_seats trip < seats_requested)
           (HTTPException HTTP_400_BAD_REQUEST) ;;;
  db <- get ;;
  raise_if (is_Some (existing_reservation trip_id (User.id passenger) db))
           (HTTPException HTTP_400_BAD_REQUEST) ;;;
  let total_price := (Trip.price_per_seat trip * float_of_int seats_requested)%float in
  let platform_fee := (total_price * 0.05)%float in
  add_reservation (fun new_id =>
    Reservation.mk new_id trip_id (User.id passenger) seats_requested
      None None PENDING
      total_price (Trip.price_per_seat trip) platform_fee
      PaymentStatus.PENDING None None None None None None None None).

Definition get_reservation_by_id (reservation_id : Z) (current_user : User.t)
  : M DB Reservation.t :=
  db <- get ;;
  match reservations db !! reservation_id with
  | None => raise (HTTPException HTTP_404_NOT_FOUND)
  | Some reservation =>
      (if decide (Reservation.passenger_id reservation <> User.id current_user) then
         trip <- on_trip (Reservation.trip_id reservation) get ;;
         raise_if (Trip.driver_id trip <> User.id current_user)
                  (HTTPException HTTP_403_FORBIDDEN)
       else ret tt) ;;;
      ret reservation
  end.

Definition confirm_reservation (reservation_id : Z) (conductor : User.t)
    (accept : bool) (message : option string) (now : Z) : M DB Reservation.t :=
  db <- get ;;
  match reservations db !! reservation_id with
  | None => raise (HTTPException HTTP_404_NOT_FOUND)
  | Some reservation =>
      let trip_id := Reservation.trip_id reservation in
      trip <- on_trip trip_id get ;;
      raise_if (Trip.driver_id trip <> User.id conductor)
               (HTTPException HTTP_403_FORBIDDEN) ;;;
      raise_if (Reservation.status reservation <> PENDING)
               (HTTPException HTTP_400_BAD_REQUEST) ;;;
      (if accept then
         raise_if (Trip.available_seats trip < Reservation.number_of_seats reservation)
                  (HTTPException HTTP_400_BAD_REQUEST) ;;;
         on_reservation reservation_id (modify (Reservation.set_status CONFIRMED)) ;;;
         on_reservation reservation_id (modify (Reservation.set_confirmed_at (Some now))) ;;;
         on_trip trip_id
           (self <- get ;;
            modify (Trip.set_available_seats
                      (Trip.available_seats self - Reservation.number_of_seats reservation))) ;;;
         trip <- on_trip trip_id get ;;
         when (Trip.available_seats trip = 0)
              (on_trip trip_id (modify (Trip.set_status TripStatus.FULL)))
       else
         on_reservation reservation_id
           (modify (Reservation.set_status CANCELLED_BY_DRIVER)) ;;;
         on_reservation reservation_id
           (modify (Reservation.set_cancelled_at (Some now))) ;;;
         on_reservation reservation_id
           (modify (Reservation.set_cancellation_reason
                      (if decide (truthy message) then message
                       else Some "Refusé par le conducteur"%string)))) ;;;
      when (truthy message)
           (on_reservation reservation_id (modify (Reservation.set_driver_notes message))) ;;;
      on_reservation reservation_id get
  end.

(** [reservation] is one object throughout: the test of line 222 reads the
    status that lines 209 and 211 have just assigned. *)
Definition cancel_reservation (reservation_id : Z) (user : User.t)
    (reason : string) (now : Z) : M DB Reservation.t :=
  reservation <- get_reservation_by_id reservation_id user ;;
  let trip_id := Reservation.trip_id reservation in
  raise_if (~ Reservation.can_be_cancelled reservation)
           (HTTPException HTTP_400_BAD_REQUEST) ;;;
  (if decide (Reservation.passenger_id reservation = User.id user) then
     on_reservation reservation_id
       (modify (Reservation.set_status CANCELLED_BY_PASSENGER))
   else
     trip <- on_trip trip_id get ;;
     if decide (Trip.driver_id trip = User.id user) then
       on_reservation reservation_id
         (modify (Reservation.set_status CANCELLED_BY_DRIVER))
     else raise (HTTPException HTTP_403_FORBIDDEN)) ;;;
  on_reservation reservation_id (modify (Reservation.set_cancelled_at (Some now))) ;;;
  on_reservation reservation_id
    (modify (Reservation.set_cancellation_reason (Some reason))) ;;;
  reservation <- on_reservation reservation_id get ;;
  when (Reservation.status reservation ∈ [CONFIRMED; PAID])
       (on_trip trip_id
          (self <- get ;;
           modify (Trip.set_available_seats
                     (Trip.available_seats self + Reservation.number_of_seats reservation))) ;;;
        trip <- on_trip trip_id get ;;
        when (Trip.status trip = TripStatus.FULL)
             (on_trip trip_id (modify (Trip.set_status TripStatus.ACTIVE)))) ;;;
  on_reservation reservation_id get.

Definition mark_reservation_as_started (reservation_id : Z) (user : User.t)
    (now : Z) : M DB Reservation.t :=
  reservation <- get_reservation_by_id reservation_id user ;;
  raise_if (Reservation.status reservation <> CONFIRMED)
           (HTTPException HTTP_400_BAD_REQUEST) ;;;
  on_reservation reservation_id (modify (Reservation.set_status STARTED)) ;;;
  on_reservation reservation_id
    (modify (Reservation.set_actual_pickup_time (Some now))) ;;;
  on_reservation reservation_id get.

Definition rate_trip (reservation_id : Z) (user : User.t) (rating : Z)
    (comment : option string) : M DB Reservation.t :=
  reservation <- get_reservation_by_id reservation_id user ;;
  let trip_id := Reservation.trip_id reservation in
  raise_if (~ Reservation.can_be_rated reservation)
           (HTTPException HTTP_400_BAD_REQUEST) ;;;
  (if decide (Reservation.passenger_id reservation = User.id user) then
     on_reservation reservation_id (modify (Reservation.set_driver_rating (Some rating))) ;;;
     on_reservation reservation_id (modify (Reservation.set_passenger_comment comment)) ;;;
     trip <- on_trip trip_id get ;;
     on_user (Trip.driver_id trip) (User.update_rating (float_of_int rating))
   else
     trip <- on_trip trip_id get ;;
     when (Trip.driver_id trip = User.id user)
          (on_reservation reservation_id
             (modify (Reservation.set_passenger_rating (Some rating))) ;;;
           on_reservation reservation_id
             (modify (Reservation.set_driver_comment comment)) ;;;
           on_user (Reservation.passenger_id reservation)
             (User.update_rating (float_of_int rating)))) ;;;
  on_reservation reservation_id get.

Definition mark_reservation_as_completed (reservation_id : Z) (user : User.t)
    (now : Z) : M DB Reservation.t :=
  reservation <- get_reservation_by_id reservation_id user ;;
  raise_if (Reservation.status reservation <> STARTED)
           (HTTPException HTTP_400_BAD_REQUEST) ;;;
  on_reservation reservation_id (modify (Reservation.set_status COMPLETED)) ;;;
  on_reservation reservation_id
    (modify (Reservation.set_actual_dropoff_time (Some now))) ;;;
  on_user (Reservation.passenger_id reservation)
    (self <- get ;;
     modify (User.set_trips_as_passenger (User.trips_as_passenger self + 1))) ;;;
  on_reservation reservation_id get.

End ReservationService.

(** ** Predicates used to state the properties *)

(** The capacity invariant of a trip: the counter stays within the
    capacity, and among the bookable statuses FULL is the empty counter. *)
Definition trip_inv (t : Trip.t) : Prop :=
  0 <= Trip.available_seats t <= Trip.total_seats t /\
  (Trip.status t ∈ [TripStatus.ACTIVE; TripStatus.FULL] ->
   (Trip.status t = TripStatus.FULL <-> Trip.available_seats t = 0)).

#[global] Instance trip_inv_dec t : Decision (trip_inv t).
Proof. unfold trip_inv. apply _. Defined.

(** A trip on which [is_bookable] gets as far as its comparison with
    [func.now()]. *)
Definition open_for_booking (t : Trip.t) : Prop :=
  Trip.status t = TripStatus.ACTIVE /\ Trip.available_seats t > 0.

(** The values that an [Integer] column of the PostgreSQL database
    (database/connection.py) holds; the commit of another one fails. *)
Definition integer_column (z : Z) : Prop := -2147483648 <= z <= 2147483647.

#[global] Instance integer_column_dec z : Decision (integer_column z).
Proof. unfold integer_column. apply _. Defined.

(** The state an operation leaves, and its outcome. *)
Definition state_after {S A : Type} (m : M S A) (s : S) : S := snd (m s).
Definition outcome {S A : Type} (m : M S A) (s : S) : Result A := fst (m s).

Definition succeeds {S A : Type} (m : M S A) (s : S) : Prop :=
  exists a, outcome m s = Ok a.

(** The caller is the passenger of the reservation or the driver of its trip. *)
Definition is_party (user : User.t) (r : Reservation.t) (db : DB) : Prop :=
  Reservation.passenger_id r = User.id user \/
  exists t, trips db !! Reservation.trip_id r = Some t /\ Trip.driver_id t = User.id user.

(** The guards of a driver confirmation with [accept=True]. *)
Definition confirm_guards (conductor : User.t) (r : Reservation.t) (t : Trip.t) : Prop :=
  Trip.driver_id t = User.id conductor /\
  Reservation.status r = ReservationStatus.PENDING /\
  Trip.available_seats t >= Reservation.number_of_seats r.

#[global] Instance confirm_guards_dec conductor r t : Decision (confirm_guards conductor r t).
Proof. unfold confirm_guards. apply _. Defined.

(** The reservation and the trip a successful confirmation leaves. *)
Definition confirmed (message : option string) (now : Z) (r : Reservation.t)
  : Reservation.t :=
  let r1 := Reservation.set_confirmed_at (Some now)
              (Reservation.set_status ReservationStatus.CONFIRMED r) in
  if decide (truthy message) then Reservation.set_driver_notes message r1 else r1.

Definition seats_taken (r : Reservation.t) (t : Trip.t) : Trip.t :=
  let t1 := Trip.set_available_seats
              (Trip.available_seats t - Reservation.number_of_seats r) t in
  if decide (Trip.available_seats t1 = 0) then Trip.set_status TripStatus.FULL t1 else t1.

(** The reservation a cancellation by [user] leaves. *)
Definition cancelled (user : User.t) (reason : string) (now : Z) (r : Reservation.t)
  : Reservation.t :=
  Reservation.set_cancellation_reason (Some reason)
    (Reservation.set_cancelled_at (Some now)
       (Reservation.set_status
          (if decide (Reservation.passenger_id r = User.id user)
           then ReservationStatus.CANCELLED_BY_PASSENGER
           else ReservationStatus.CANCELLED_BY_DRIVER) r)).

(** The guards of a reservation request for [seats] seats on trip [t]. *)
Definition create_guards (passenger : User.t) (trip_id : Z) (t : Trip.t)
    (seats now : Z) (db : DB) : Prop :=
  User.is_phone_verified passenger = true /\
  Trip.driver_id t <> User.id passenger /\
  (Trip.status t = TripStatus.ACTIVE /\ Trip.available_seats t > 0 /\
   Trip.departure_datetime t > now) /\
  seats <= Trip.available_seats t /\
  ReservationService.existing_reservation trip_id (User.id passenger) db = None.

(** The row a successful request inserts under the key [new_id]. *)
Definition requested (passenger : User.t) (trip_id : Z) (t : Trip.t) (seats new_id : Z)
  : Reservation.t :=
  Reservation.mk new_id trip_id (User.id passenger) seats None None
    ReservationStatus.PENDING
    (Trip.price_per_seat t * float_of_int seats)%float
    (Trip.price_per_seat t)
    (Trip.price_per_seat t * float_of_int seats * 0.05)%float
    PaymentStatus.PENDING None None None None None None None None.

(** The user a rating by [user] is about: the driver of the trip when the
    passenger rates, the passenger when the driver rates. *)
Definition rating_target (user : User.t) (r : Reservation.t) (t : Trip.t) : Z :=
  if decide (Reservation.passenger_id r = User.id user)
  then Trip.driver_id t else Reservation.passenger_id r.

(** The reservation and the rated user a rating leaves. *)
Definition rated (user : User.t) (rating : Z) (comment : option string)
    (r : Reservation.t) : Reservation.t :=
  if decide (Reservation.passenger_id r = User.id user)
  then Reservation.set_passenger_comment comment
         (Reservation.set_driver_rating (Some rating) r)
  else Reservation.set_driver_comment comment
         (Reservation.set_passenger_rating (Some rating) r).

Definition with_rating (rating : Z) (u : User.t) : User.t :=
  User.set_rating_average
    ((User.rating_average u * float_of_int (User.total_ratings u) + float_of_int rating)
     / float_of_int (User.total_ratings u + 1))%float
    (User.set_total_ratings (User.total_ratings u + 1) u).

(** C8 as stated, for two successive calls by the same party: the second
    call leaves the rated user as the first call left it. *)
Definition second_rating_ignored (db : DB) (rid : Z) (user : User.t) (target : Z)
    (rating1 rating2 : Z) : Prop :=
  let db1 := state_after (ReservationService.rate_trip rid user rating1 None) db in
  let db2 := state_after (ReservationService.rate_trip rid user rating2 None) db1 in
  User.total_ratings <$> users db2 !! target = User.total_ratings <$> users db1 !! target.

(** Successive trip creations. *)
Fixpoint create_trips (requests : list (TripService.TripData * User.t)) (db : DB) : DB :=
  match requests with
  | [] => db
  | (trip_data, driver) :: rest =>
      create_trips rest (state_after (TripService.create_trip trip_data driver) db)
  end.

(** C10 as stated: no driver holds more than 5 trips in status ACTIVE or FULL. *)
Definition at_most_five_active (db : DB) : Prop :=
  forall d, (TripService.active_trips_count d db <= 5)%nat.

(** C2 as stated, for one call of the service: it succeeds exactly when the
    reservation is PAID. *)
Definition start_requires_paid (db : DB) (rid : Z) (user : User.t) (now : Z) : Prop :=
  forall r, reservations db !! rid = Some r ->
    (succeeds (ReservationService.mark_reservation_as_started rid user now) db
     <-> Reservation.status r = ReservationStatus.PAID).

(** ** Outcomes of the reservation services, case by case *)

(** What [get_reservation_by_id] can answer. *)
Inductive access_result (rid : Z) (user : User.t) (db : DB)
  : Result Reservation.t * DB -> Prop :=
| access_granted r :
    reservations db !! rid = Some r -> is_party user r db ->
    access_result rid user db (Ok r, db)
| access_not_found :
    reservations db !! rid = None ->
    access_result rid user db (Raised (HTTPException HTTP_404_NOT_FOUND), db)
| access_forbidden r t :
    reservations db !! rid = Some r ->
    Reservation.passenger_id r <> User.id user ->
    trips db !! Reservation.trip_id r = Some t -> Trip.driver_id t <> User.id user ->
    access_result rid user db (Raised (HTTPException HTTP_403_FORBIDDEN), db)
| access_dangling r :
    reservations db !! rid = Some r ->
    Reservation.passenger_id r <> User.id user ->
    trips db !! Reservation.trip_id r = None ->
    access_result rid user db (Raised AttributeError, db).

(** The reservation a refusal by the driver leaves. *)
Definition refused (message : option string) (now : Z) (r : Reservation.t)
  : Reservation.t :=
  let r1 := Reservation.set_cancellation_reason
              (if decide (truthy message) then message
               else Some "Refusé par le conducteur"%string)
              (Reservation.set_cancelled_at (Some now)
                 (Reservation.set_status ReservationStatus.CANCELLED_BY_DRIVER r)) in
  if decide (truthy message) then Reservation.set_driver_notes message r1 else r1.

(** What [confirm_reservation] can answer. *)
Inductive confirm_result (rid : Z) (conductor : User.t) (accept : bool)
    (message : option string) (now : Z) (db : DB)
  : Result Reservation.t * DB -> Prop :=
| confirm_not_found :
    reservations db !! rid = None ->
    confirm_result rid conductor accept message now db
      (Raised (HTTPException HTTP_404_NOT_FOUND), db)
| confirm_dangling r :
    reservations db !! rid = Some r -> trips db !! Reservation.trip_id r = None ->
    confirm_result rid conductor accept message now db (Raised AttributeError, db)
| confirm_forbidden r t :
    reservations db !! rid = Some r -> trips db !! Reservation.trip_id r = Some t ->
    Trip.driver_id t <> User.id conductor ->
    confirm_result rid conductor accept message now db
      (Raised (HTTPException HTTP_403_FORBIDDEN), db)
| confirm_not_pending r t :
    reservations db !! rid = Some r -> trips db !! Reservation.trip_id r = Some t ->
    Trip.driver_id t = User.id conductor ->
    Reservation.status r <> ReservationStatus.PENDING ->
    confirm_result rid conductor accept message now db
      (Raised (HTTPException HTTP_400_BAD_REQUEST), db)
| confirm_no_seats r t :
    reservations db !! rid = Some r -> trips db !! Reservation.trip_id r = Some t ->
    Trip.driver_id t = User.id conductor ->
    Reservation.status r = ReservationStatus.PENDING ->
    accept = true -> Trip.available_seats t < Reservation.number_of_seats r ->
    confirm_result rid conductor accept message now db
      (Raised (HTTPException HTTP_400_BAD_REQUEST), db)
| confirm_accepted r t :
    reservations db !! rid = Some r -> trips db !! Reservation.trip_id r = Some t ->
    accept = true -> confirm_guards conductor r t ->
    confirm_result rid conductor accept message now db
      (Ok (confirmed message now r),
       mkDB (users db) (<[Reservation.trip_id r := seats_taken r t]> (trips db))
            (<[rid := confirmed message now r]> (reservations db))
            (trip_seq db) (reservation_seq db))
| confirm_refused r t :
    reservations db !! rid = Some r -> trips db !! Reservation.trip_id r = Some t ->
    accept = false -> Trip.driver_id t = User.id conductor ->
    Reservation.status r = ReservationStatus.PENDING ->
    confirm_result rid conductor accept message now db
      (Ok (refused message now r),
       set_reservations (<[rid := refused message now r]> (reservations db)) db).

(** The reservation a start or a completion leaves. *)
Definition started (now : Z) (r : Reservation.t) : Reservation.t :=
  Reservation.set_actual_pickup_time (Some now)
    (Reservation.set_status ReservationStatus.STARTED r).

Definition completed (now : Z) (r : Reservation.t) : Reservation.t :=
  Reservation.set_actual_dropoff_time (Some now)
    (Reservation.set_status ReservationStatus.COMPLETED r).

(** What a request leaves in the database once it is over: [get_db]
    (database/connection.py) closes the session at the end of the request,
    and a service that raises has not reached its [db.commit()], so whatever
    it had assigned is discarded. *)
Definition persisted {A : Type} (m : M DB A) (db : DB) : DB :=
  match m db with
  | (Ok _, db') => db'
  | (Raised _, _) => db
  end.

(** The calls of the reservation services on an existing reservation. *)
Inductive Call : Type :=
| Confirm (rid : Z) (conductor : User.t) (accept : bool) (message : option string)
| Cancel (rid : Z) (user : User.t) (reason : string)
| Start (rid : Z) (user : User.t)
| Complete (rid : Z) (user : User.t)
| Rate (rid : Z) (user : User.t) (rating : Z) (comment : option string).

Definition run_call (c : Call) (now : Z) : M DB Reservation.t :=
  match c with
  | Confirm rid conductor accept message =>
      ReservationService.confirm_reservation rid conductor accept message now
  | Cancel rid user reason => ReservationService.cancel_reservation rid user reason now
  | Start rid user => ReservationService.mark_reservation_as_started rid user now
  | Complete rid user => ReservationService.mark_reservation_as_completed rid user now
  | Rate rid user rating comment => ReservationService.rate_trip rid user rating comment
  end.

Definition call_target (c : Call) : Z :=
  match c with
  | Confirm rid _ _ _ | Cancel rid _ _ | Start rid _ | Complete rid _ | Rate rid _ _ _ => rid
  end.

(** The booking data of a reservation: what it reserves, for whom, at what
    price. *)
Definition same_booking (r r' : Reservation.t) : Prop :=
  Reservation.id r' = Reservation.id r /\
  Reservation.trip_id r' = Reservation.trip_id r /\
  Reservation.passenger_id r' = Reservation.passenger_id r /\
  Reservation.number_of_seats r' = Reservation.number_of_seats r /\
  Reservation.total_price r' = Reservation.total_price r /\
  Reservation.price_per_seat r' = Reservation.price_per_seat r /\
  Reservation.platform_fee r' = Reservation.platform_fee r /\
  Reservation.payment_status r' = Reservation.payment_status r.

(** The status changes the services perform. *)
Definition lifecycle_step (s s' : ReservationStatus.t) : Prop :=
  s' = s \/
  match s with
  | ReservationStatus.PENDING =>
      s' ∈ [ReservationStatus.CONFIRMED; ReservationStatus.CANCELLED_BY_PASSENGER;
            ReservationStatus.CANCELLED_BY_DRIVER]
  | ReservationStatus.CONFIRMED =>
      s' ∈ [ReservationStatus.STARTED; ReservationStatus.CANCELLED_BY_PASSENGER;
            ReservationStatus.CANCELLED_BY_DRIVER]
  | ReservationStatus.PAID =>
      s' ∈ [ReservationStatus.CANCELLED_BY_PASSENGER;
            ReservationStatus.CANCELLED_BY_DRIVER]
  | ReservationStatus.STARTED => s' = ReservationStatus.COMPLETED
  | _ => False
  end.

(** At most one active reservation for each trip and passenger. *)
Definition active_unique (db : DB) : Prop :=
  forall k1 k2 r1 r2,
    reservations db !! k1 = Some r1 -> reservations db !! k2 = Some r2 ->
    Reservation.is_active r1 -> Reservation.is_active r2 ->
    Reservation.trip_id r1 = Reservation.trip_id r2 ->
    Reservation.passenger_id r1 = Reservation.passenger_id r2 ->
    k1 = k2.

(** No trip has a negative number of seats left. *)
Definition seats_nonneg (db : DB) : Prop :=
  forall k t, trips db !! k = Some t -> 0 <= Trip.available_seats t.

(** Successive requests, each one over before the next begins. *)
Fixpoint run_calls (calls : list (Call * Z)) (db : DB) : DB :=
  match calls with
  | [] => db
  | (c, now) :: rest => run_calls rest (persisted (run_call c now) db)
  end.

(** ** The methods of the Reservation model *)

(** A method of [Reservation.t] run on the whole object, payment columns
    included. *)
Definition on_self {X : Type} (m : M Reservation.t X)
  : M (Reservation.t * Reservation.PaymentColumns) X :=
  fun s => let '(x, r') := m s.1 in (x, (r', s.2)).

(** The calls of the state-changing methods of the model. *)
Inductive Method : Type :=
| MConfirm
| MCancel (reason : option string) (cancelled_by : string)
| MMarkAsPaid (transaction_id : option string) (method : option PaymentMethod.t)
| MStartTrip
| MCompleteTrip
| MRateDriver (rating : Z) (comment : option string)
| MRatePassenger (rating : Z) (comment : option string).

Definition run_method (m : Method) (now : Z)
  : M (Reservation.t * Reservation.PaymentColumns) bool :=
  match m with
  | MConfirm => on_self (Reservation.confirm now)
  | MCancel reason cancelled_by => on_self (Reservation.cancel reason cancelled_by now)
  | MMarkAsPaid transaction_id method =>
      Reservation.mark_as_paid transaction_id method now
  | MStartTrip => on_self (Reservation.start_trip now)
  | MCompleteTrip => on_self (Reservation.complete_trip now)
  | MRateDriver rating comment => on_self (Reservation.rate_driver rating comment)
  | MRatePassenger rating comment => on_self (Reservation.rate_passenger rating comment)
  end.

(** The status a method that answers [True] moves a reservation from and to. *)
Definition method_step (m : Method) (s s' : ReservationStatus.t) : Prop :=
  match m with
  | MConfirm => s = ReservationStatus.PENDING /\ s' = ReservationStatus.CONFIRMED
  | MCancel _ cancelled_by =>
      s ∈ [ReservationStatus.PENDING; ReservationStatus.CONFIRMED; ReservationStatus.PAID] /\
      s' = (if decide (cancelled_by = "passenger"%string)
            then ReservationStatus.CANCELLED_BY_PASSENGER
            else ReservationStatus.CANCELLED_BY_DRIVER)
  | MMarkAsPaid _ _ => s = ReservationStatus.CONFIRMED /\ s' = ReservationStatus.PAID
  | MStartTrip => s = ReservationStatus.PAID /\ s' = ReservationStatus.STARTED
  | MCompleteTrip => s = ReservationStatus.STARTED /\ s' = ReservationStatus.COMPLETED
  | MRateDriver _ _ | MRatePassenger _ _ =>
      s = ReservationStatus.COMPLETED /\ s' = ReservationStatus.COMPLETED
  end.

(** ** Concrete states used by the examples *)


(** A verified driver with two ratings averaging 4.0. *)
Definition rated_driver : User.t :=
  User.mk 1 true true UserType.CONDUCTEUR UserStatus.VERIFIED true 4%float 2 0 0.

(** A phone-verified passenger. *)
Definition passenger_2 : User.t :=
  User.mk 2 true true UserType.PASSAGER UserStatus.VERIFIED false 0%float 0 0 0.

(** A reservation of [seats] seats by [passenger_2] on trip 1, in status [st]. *)
Definition reservation_1 (seats : Z) (st : ReservationStatus.t) : Reservation.t :=
  Reservation.mk 1 1 2 seats None None st
    (1000 * float_of_int seats)%float 1000%float (1000 * float_of_int seats * 0.05)%float
    PaymentStatus.PENDING None None None None None None None None.

(** Trip 1 of [rated_driver] with [available] of its 4 seats left, and the
    reservation above on it. *)
Definition db_with (available : Z) (tst : TripStatus.t) (seats : Z)
    (st : ReservationStatus.t) : DB :=
  mkDB (<[1 := rated_driver]> (<[2 := passenger_2]> ∅))
       (<[1 := Trip.mk 1 1 1000 4 available 1000%float tst]> ∅)
       (<[1 := reservation_1 seats st]> ∅)
       2 2.

(** Trip 1 of [rated_driver], 4 seats at 1000 FCFA with [available] left,
    and no reservation yet. *)
Definition db_trip_only (available : Z) : DB :=
  mkDB (<[1 := rated_driver]> (<[2 := passenger_2]> ∅))
       (<[1 := Trip.mk 1 1 1000 4 available 1000%float TripStatus.ACTIVE]> ∅)
       ∅ 2 1.

(** A database with the two users and nothing else. *)
Definition db_users_only : DB :=
  mkDB (<[1 := rated_driver]> (<[2 := passenger_2]> ∅)) ∅ ∅ 1 1.

Definition four_seats : TripService.TripData :=
  TripService.mkTripData 1000 4 1000%float.

(** The driver publishes five trips; the passenger requests the 4 seats of
    trip 1; the driver starts trip 1, publishes a sixth trip, and then
    accepts the pending request on trip 1. *)
Definition six_active_trips_run : M DB Reservation.t :=
  TripService.create_trip four_seats rated_driver ;;;
  TripService.create_trip four_seats rated_driver ;;;
  TripService.create_trip four_seats rated_driver ;;;
  TripService.create_trip four_seats rated_driver ;;;
  TripService.create_trip four_seats rated_driver ;;;
  ReservationService.create_reservation
    (ReservationService.mkReservationData (Some 4)) passenger_2 1 10 ;;;
  TripService.mark_trip_as_started 1 rated_driver ;;;
  TripService.create_trip four_seats rated_driver ;;;
  ReservationService.confirm_reservation 1 rated_driver true None 20.

(** The driver has published five trips. *)
Definition db_five_active : DB :=
  create_trips (replicate 5 (four_seats, rated_driver)) db_users_only.

(** A suspended, deactivated, driver-only account whose phone is verified. *)
Definition suspended_driver_3 : User.t :=
  User.mk 3 false true UserType.CONDUCTEUR UserStatus.SUSPENDED false 0%float 0 0 0.

(** Two pending requests, for 3 and for 2 seats, on the 4-seat trip 1. *)
Definition db_two_requests : DB :=
  mkDB (<[1 := rated_driver]> (<[2 := passenger_2]> ∅))
       (<[1 := Trip.mk 1 1 1000 4 4 1000%float TripStatus.ACTIVE]> ∅)
       (<[1 := reservation_1 3 ReservationStatus.PENDING]>
          (<[2 := Reservation.mk 2 1 3 2 None None ReservationStatus.PENDING
                    2000%float 1000%float 100%float PaymentStatus.PENDING
                    None None None None None None None None]> ∅))
       2 3.

(** * Properties *)

(** ** Proof tools *)

Ltac unfold_monad :=
  unfold state_after, outcome, succeeds, raise_if, when, bind, ret, raise, get, modify in *.

Ltac run := unfold_monad; simpl in *; repeat (case_decide; simpl in *).

(** Closing a decidable closed proposition by evaluating its decision. *)
Ltac by_evaluation := apply (bool_decide_unpack _); vm_compute; exact I.

(** A failed guard against the hypothesis that all guards hold. *)
Ltac guard_contradiction :=
  first
    [ contradiction
    | lia
    | match goal with
      | H : _ \/ _ \/ _ |- _ => destruct H as [|[|]]; first [contradiction | lia]
      | H : is_Some ?x, E : ?x = None |- _ => rewrite E in H; destruct H; discriminate
      end ].

Lemma elem_of_2 {A : Type} (x a b : A) : x ∈ [a; b] <-> x = a \/ x = b.
Proof. rewrite !elem_of_cons, elem_of_nil. tauto. Qed.

(** ** Trip inventory *)

Section TripInventory.
Import TripStatus.

(** The three ways through [book_seat]: too few seats or a trip that is not
    open give [False]; on an open trip with enough seats the truth value of
    the clause is asked for, and [TypeError] is raised before any seat is
    taken. *)
Lemma book_seat_cases (count : Z) (t : Trip.t) :
  (Trip.available_seats t >= count /\ open_for_booking t /\
   Trip.book_seat count t = (Raised TypeError, t)) \/
  (~ (Trip.available_seats t >= count /\ open_for_booking t) /\
   Trip.book_seat count t = (Ok false, t)).
Proof.
  unfold Trip.book_seat, Trip.is_bookable, Trip.py_and, Trip.truth, open_for_booking.
  unfold bind, get, ret, raise.
  destruct (decide (Trip.available_seats t >= count)) as [Hge|Hlt];
    [|right; split; [tauto | reflexivity]].
  repeat case_bool_decide;
    first [ left; split; [assumption|]; split; [tauto | reflexivity]
          | right; split; [tauto | reflexivity] ].
Qed.

Lemma book_seat_changes_nothing (count : Z) (t : Trip.t) :
  state_after (Trip.book_seat count) t = t /\ outcome (Trip.book_seat count) t <> Ok true.
Proof.
  unfold state_after, outcome.
  destruct (book_seat_cases count t) as [(_ & _ & ->) | (_ & ->)]; simpl;
    split; [reflexivity | discriminate | reflexivity | discriminate].
Qed.








End TripInventory.

(** ** Rating aggregator *)

Section RatingAggregator.

Lemma update_rating_run (new_rating : float) (u : User.t) :
  User.total_ratings u + 1 <> 0 ->
  User.update_rating new_rating u =
  (Ok tt,
   User.set_rating_average
     ((User.rating_average u * float_of_int (User.total_ratings u) + new_rating)
      / float_of_int (User.total_ratings u + 1))%float
     (User.set_total_ratings (User.total_ratings u + 1) u)).
Proof. intros Hn. unfold User.update_rating. run; [lia | reflexivity]. Qed.

(** A counter at -1 makes the division fail, after the increment. *)
Lemma update_rating_zero_division (new_rating : float) (u : User.t) :
  User.total_ratings u = -1 ->
  User.update_rating new_rating u
  = (Raised ZeroDivisionError, User.set_total_ratings 0 u).
Proof.
  intros Hn. unfold User.update_rating. run; [|lia].
  rewrite Hn. reflexivity.
Qed.

(** C7: [update_rating] replaces the average by
    (old average * old count + new rating) / (old count + 1) and increments
    the count by exactly one; nothing else of the user changes. *)
Theorem update_rating_running_average (u : User.t) (new_rating : float) :
  User.total_ratings u + 1 <> 0 ->
  outcome (User.update_rating new_rating) u = Ok tt /\
  let u' := state_after (User.update_rating new_rating) u in
  User.rating_average u'
  = ((User.rating_average u * float_of_int (User.total_ratings u) + new_rating)
     / float_of_int (User.total_ratings u + 1))%float /\
  User.total_ratings u' = User.total_ratings u + 1 /\
  User.set_rating_average (User.rating_average u)
    (User.set_total_ratings (User.total_ratings u) u') = u.
Proof.
  intros Hn. unfold outcome, state_after.
  rewrite (update_rating_run new_rating u Hn). simpl.
  repeat split. destruct u; reflexivity.
Qed.

(** From (4.0, 2), the rating 5 gives (13/3 = 4.33.., 3). *)
Lemma update_rating_running_average_witness :
  let u' := state_after (User.update_rating (float_of_int 5)) rated_driver in
  outcome (User.update_rating (float_of_int 5)) rated_driver = Ok tt /\
  User.rating_average u' = (13 / 3)%float /\
  (4.33 <? User.rating_average u')%float = true /\
  (User.rating_average u' <? 4.34)%float = true /\
  User.total_ratings u' = 3.
Proof.
  destruct (update_rating_running_average rated_driver (float_of_int 5))
    as (Hok & Havg & Htot & _); [simpl; lia|].
  cbv zeta in *. split; [exact Hok|].
  rewrite Havg, Htot. repeat split; vm_compute; reflexivity.
Defined.

End RatingAggregator.

(** ** Rows and ORM objects *)

Section Rows.

Lemma set_users_same (db : DB) (k : Z) (u : User.t) :
  users db !! k = Some u -> set_users (<[k := u]> (users db)) db = db.
Proof. intros H. destruct db; unfold set_users; simpl in *. now rewrite insert_id. Qed.

Lemma set_trips_same (db : DB) (k : Z) (t : Trip.t) :
  trips db !! k = Some t -> set_trips (<[k := t]> (trips db)) db = db.
Proof. intros H. destruct db; unfold set_trips; simpl in *. now rewrite insert_id. Qed.

Lemma set_reservations_same (db : DB) (k : Z) (r : Reservation.t) :
  reservations db !! k = Some r -> set_reservations (<[k := r]> (reservations db)) db = db.
Proof. intros H. destruct db; unfold set_reservations; simpl in *. now rewrite insert_id. Qed.

Lemma on_user_run {A : Type} (k : Z) (m : M User.t A) (db : DB) (u : User.t) :
  users db !! k = Some u ->
  on_user k m db = (fst (m u), set_users (<[k := snd (m u)]> (users db)) db).
Proof. intros H. unfold on_user. rewrite H. now destruct (m u). Qed.

Lemma on_trip_run {A : Type} (k : Z) (m : M Trip.t A) (db : DB) (t : Trip.t) :
  trips db !! k = Some t ->
  on_trip k m db = (fst (m t), set_trips (<[k := snd (m t)]> (trips db)) db).
Proof. intros H. unfold on_trip. rewrite H. now destruct (m t). Qed.

Lemma on_reservation_run {A : Type} (k : Z) (m : M Reservation.t A) (db : DB)
    (r : Reservation.t) :
  reservations db !! k = Some r ->
  on_reservation k m db
  = (fst (m r), set_reservations (<[k := snd (m r)]> (reservations db)) db).
Proof. intros H. unfold on_reservation. rewrite H. now destruct (m r). Qed.

Lemma on_trip_get (k : Z) (db : DB) (t : Trip.t) :
  trips db !! k = Some t -> on_trip k get db = (Ok t, db).
Proof.
  intros H. rewrite (on_trip_run k get db t H). simpl. now rewrite set_trips_same.
Qed.

Lemma on_reservation_get (k : Z) (db : DB) (r : Reservation.t) :
  reservations db !! k = Some r -> on_reservation k get db = (Ok r, db).
Proof.
  intros H. rewrite (on_reservation_run k get db r H). simpl.
  now rewrite set_reservations_same.
Qed.

Lemma on_trip_modify (k : Z) (f : Trip.t -> Trip.t) (db : DB) (t : Trip.t) :
  trips db !! k = Some t ->
  on_trip k (modify f) db = (Ok tt, set_trips (<[k := f t]> (trips db)) db).
Proof. intros H. now rewrite (on_trip_run k _ db t H). Qed.

Lemma on_reservation_modify (k : Z) (f : Reservation.t -> Reservation.t) (db : DB)
    (r : Reservation.t) :
  reservations db !! k = Some r ->
  on_reservation k (modify f) db
  = (Ok tt, set_reservations (<[k := f r]> (reservations db)) db).
Proof. intros H. now rewrite (on_reservation_run k _ db r H). Qed.

Lemma set_reservations_twice (m1 m2 : gmap Z Reservation.t) (db : DB) :
  set_reservations m2 (set_reservations m1 db) = set_reservations m2 db.
Proof. reflexivity. Qed.

Lemma set_trips_twice (m1 m2 : gmap Z Trip.t) (db : DB) :
  set_trips m2 (set_trips m1 db) = set_trips m2 db.
Proof. reflexivity. Qed.

End Rows.

(** Symbolic execution of a service: unfold one monadic step, then replace
    accesses to rows by their effect on the tables. *)
Ltac lookup_solve :=
  simpl; rewrite ?lookup_insert_eq; first [eassumption | reflexivity].

Ltac exec_step :=
  first
    [ erewrite on_reservation_get by lookup_solve
    | erewrite on_trip_get by lookup_solve
    | erewrite on_reservation_modify by lookup_solve
    | erewrite on_trip_modify by lookup_solve
    | erewrite on_trip_run by lookup_solve
    | erewrite on_user_run by lookup_solve
    | match goal with
      | H : ?m !! ?k = _ |- context [?m !! ?k] => rewrite H
      end
    | progress (unfold raise_if, when)
    | progress simpl
    | progress (rewrite ?set_reservations_twice, ?set_trips_twice, ?insert_insert_eq)
    | case_decide ].

Ltac exec := unfold bind, ret, raise, get; simpl; repeat exec_step.

(** ** Reservation lifecycle *)

Section ReservationLifecycle.
Import ReservationStatus.

Lemma get_reservation_by_id_ok (db : DB) (rid : Z) (user : User.t) (r : Reservation.t) :
  reservations db !! rid = Some r -> is_party user r db ->
  ReservationService.get_reservation_by_id rid user db = (Ok r, db).
Proof.
  intros Hr Hp. unfold ReservationService.get_reservation_by_id.
  unfold bind, get at 1. simpl. rewrite Hr.
  destruct Hp as [Hp | (t & Ht & Hd)].
  - exec; congruence.
  - exec; congruence.
Qed.

(** *** Start *)

Lemma mark_reservation_as_started_confirmed (db : DB) (rid : Z) (user : User.t)
    (now : Z) (r : Reservation.t) :
  reservations db !! rid = Some r -> is_party user r db ->
  Reservation.status r = CONFIRMED ->
  let r' := Reservation.set_actual_pickup_time (Some now)
              (Reservation.set_status STARTED r) in
  ReservationService.mark_reservation_as_started rid user now db
  = (Ok r', set_reservations (<[rid := r']> (reservations db)) db).
Proof.
  intros Hr Hp Hs. unfold ReservationService.mark_reservation_as_started.
  unfold bind at 1. rewrite (get_reservation_by_id_ok db rid user r Hr Hp).
  exec; [congruence | reflexivity].
Qed.

Lemma mark_reservation_as_started_other (db : DB) (rid : Z) (user : User.t)
    (now : Z) (r : Reservation.t) :
  reservations db !! rid = Some r -> is_party user r db ->
  Reservation.status r <> CONFIRMED ->
  ReservationService.mark_reservation_as_started rid user now db
  = (Raised (HTTPException HTTP_400_BAD_REQUEST), db).
Proof.
  intros Hr Hp Hs. unfold ReservationService.mark_reservation_as_started.
  unfold bind at 1. rewrite (get_reservation_by_id_ok db rid user r Hr Hp).
  exec; [reflexivity | congruence].
Qed.

Lemma start_trip_run (now : Z) (r : Reservation.t) :
  Reservation.start_trip now r =
  if decide (Reservation.status r = PAID)
  then (Ok true, Reservation.set_actual_pickup_time (Some now)
                   (Reservation.set_status STARTED r))
  else (Ok false, r).
Proof. unfold Reservation.start_trip. run; reflexivity. Qed.

(** C2 (as stated, refuted): the service refuses to start a PAID
    reservation, for its own passenger. *)
Lemma start_paid_reservation_refused :
  ReservationService.mark_reservation_as_started 1 passenger_2 50
    (db_with 2 TripStatus.ACTIVE 2 PAID)
  = (Raised (HTTPException HTTP_400_BAD_REQUEST), db_with 2 TripStatus.ACTIVE 2 PAID)
  /\ ~ start_requires_paid (db_with 2 TripStatus.ACTIVE 2 PAID) 1 passenger_2 50.
Proof.
  assert (Hrun : ReservationService.mark_reservation_as_started 1 passenger_2 50
            (db_with 2 TripStatus.ACTIVE 2 PAID)
          = (Raised (HTTPException HTTP_400_BAD_REQUEST),
             db_with 2 TripStatus.ACTIVE 2 PAID)).
  { apply (mark_reservation_as_started_other _ _ _ _ (reservation_1 2 PAID));
      [reflexivity | left; reflexivity | discriminate]. }
  split; [exact Hrun|].
  intros Hclaim.
  destruct (proj2 (Hclaim (reservation_1 2 PAID) eq_refl) eq_refl) as [a Ha].
  unfold outcome in Ha. rewrite Hrun in Ha. discriminate.
Qed.

(** C2 (amended): the service [mark_reservation_as_started], called by a
    party of the reservation, succeeds exactly when the status is CONFIRMED:
    the reservation becomes STARTED with [actual_pickup_time] stamped and
    nothing else changes; for any other status it raises the 400 error and
    changes nothing.  The model method [start_trip] is the operation guarded
    by PAID: it returns [True] and makes the same two assignments exactly
    when the status is PAID, and otherwise returns [False] without a change. *)
Theorem start_reservation_guard (db : DB) (rid : Z) (user : User.t) (now : Z)
    (r : Reservation.t) :
  reservations db !! rid = Some r -> is_party user r db ->
  let started := Reservation.set_actual_pickup_time (Some now)
                   (Reservation.set_status STARTED r) in
  let start := ReservationService.mark_reservation_as_started rid user now in
  (succeeds start db <-> Reservation.status r = CONFIRMED) /\
  (Reservation.status r = CONFIRMED ->
   start db = (Ok started, set_reservations (<[rid := started]> (reservations db)) db)) /\
  (Reservation.status r <> CONFIRMED ->
   start db = (Raised (HTTPException HTTP_400_BAD_REQUEST), db)) /\
  (Reservation.status r = PAID -> Reservation.start_trip now r = (Ok true, started)) /\
  (Reservation.status r <> PAID -> Reservation.start_trip now r = (Ok false, r)).
Proof.
  intros Hr Hp started start.
  assert (Hc := mark_reservation_as_started_confirmed db rid user now r Hr Hp).
  assert (Ho := mark_reservation_as_started_other db rid user now r Hr Hp).
  split; [|split; [exact Hc | split; [exact Ho|]]].
  - unfold succeeds, outcome. split.
    + intros [a Ha]. destruct (decide (Reservation.status r = CONFIRMED)) as [|Hn]; [assumption|].
      unfold start in Ha. rewrite (Ho Hn) in Ha. discriminate.
    + intros Hs. unfold start. rewrite (Hc Hs). eauto.
  - rewrite start_trip_run. split; intros Hs; case_decide;
      first [reflexivity | contradiction].
Qed.

Lemma start_reservation_guard_witness :
  let db := db_with 2 TripStatus.ACTIVE 2 CONFIRMED in
  succeeds (ReservationService.mark_reservation_as_started 1 passenger_2 50) db /\
  (exists db', ReservationService.mark_reservation_as_started 1 passenger_2 50 db
     = (Ok (Reservation.set_actual_pickup_time (Some 50)
              (Reservation.set_status STARTED (reservation_1 2 CONFIRMED))), db')).
Proof.
  destruct (start_reservation_guard (db_with 2 TripStatus.ACTIVE 2 CONFIRMED) 1
              passenger_2 50 (reservation_1 2 CONFIRMED) eq_refl (or_introl eq_refl))
    as (Hiff & Hc & _).
  split.
  - apply Hiff. reflexivity.
  - eexists. apply Hc. reflexivity.
Defined.

(** *** Driver confirmation *)

Lemma confirm_reservation_accepted (db : DB) (rid : Z) (conductor : User.t)
    (message : option string) (now : Z) (r : Reservation.t) (t : Trip.t) :
  reservations db !! rid = Some r -> trips db !! Reservation.trip_id r = Some t ->
  confirm_guards conductor r t ->
  ReservationService.confirm_reservation rid conductor true message now db
  = (Ok (confirmed message now r),
     mkDB (users db) (<[Reservation.trip_id r := seats_taken r t]> (trips db))
          (<[rid := confirmed message now r]> (reservations db))
          (trip_seq db) (reservation_seq db)).
Proof.
  intros Hr Ht (Hd & Hs & Hseats).
  unfold ReservationService.confirm_reservation, confirmed, seats_taken.
  exec; try congruence; try lia; reflexivity.
Qed.

Lemma confirm_reservation_refused (db : DB) (rid : Z) (conductor : User.t)
    (message : option string) (now : Z) (r : Reservation.t) (t : Trip.t) :
  reservations db !! rid = Some r -> trips db !! Reservation.trip_id r = Some t ->
  ~ confirm_guards conductor r t ->
  exists e, ReservationService.confirm_reservation rid conductor true message now db
            = (Raised e, db).
Proof.
  intros Hr Ht Hg. unfold confirm_guards in Hg.
  unfold ReservationService.confirm_reservation.
  exec; eauto; exfalso; apply Hg; repeat split; first [congruence | lia | tauto].
Qed.

Lemma confirmed_fields (message : option string) (now : Z) (r : Reservation.t) :
  Reservation.status (confirmed message now r) = CONFIRMED /\
  Reservation.confirmed_at (confirmed message now r) = Some now /\
  Reservation.number_of_seats (confirmed message now r) = Reservation.number_of_seats r.
Proof. unfold confirmed. case_decide; repeat split. Qed.

Lemma seats_taken_fields (r : Reservation.t) (t : Trip.t) :
  Trip.available_seats (seats_taken r t)
  = Trip.available_seats t - Reservation.number_of_seats r /\
  Trip.total_seats (seats_taken r t) = Trip.total_seats t /\
  Trip.status (seats_taken r t)
  = (if decide (Trip.available_seats (seats_taken r t) = 0)
     then TripStatus.FULL else Trip.status t).
Proof.
  unfold seats_taken. simpl.
  destruct (decide (Trip.available_seats t - Reservation.number_of_seats r = 0)) as [H0|H0];
    simpl; rewrite ?decide_True, ?decide_False by assumption; repeat split.
Qed.

(** C3: with [accept=True], the confirmation of an existing reservation
    succeeds exactly when the caller is the driver of its trip, the status is
    PENDING and the trip has at least the reserved number of seats left.  On
    success the reservation is CONFIRMED with [confirmed_at] stamped, the
    counter of the trip decreases by exactly the reserved number, and the
    trip is marked FULL exactly when the counter reaches 0, keeping its
    status (ACTIVE for a bookable trip) otherwise; no other row changes.  If
    a guard fails an error is raised and the database is unchanged. *)
Theorem driver_confirmation_accept (db : DB) (rid : Z) (conductor : User.t)
    (message : option string) (now : Z) (r : Reservation.t) (t : Trip.t) :
  reservations db !! rid = Some r -> trips db !! Reservation.trip_id r = Some t ->
  let confirm := ReservationService.confirm_reservation rid conductor true message now in
  let r' := confirmed message now r in
  let t' := seats_taken r t in
  (succeeds confirm db <-> confirm_guards conductor r t) /\
  (confirm_guards conductor r t ->
   confirm db = (Ok r', mkDB (users db) (<[Reservation.trip_id r := t']> (trips db))
                             (<[rid := r']> (reservations db))
                             (trip_seq db) (reservation_seq db)) /\
   Reservation.status r' = CONFIRMED /\
   Reservation.confirmed_at r' = Some now /\
   Trip.available_seats t' = Trip.available_seats t - Reservation.number_of_seats r /\
   Trip.status t' = (if decide (Trip.available_seats t' = 0)
                     then TripStatus.FULL else Trip.status t) /\
   (Trip.status t = TripStatus.ACTIVE ->
    (Trip.status t' = TripStatus.FULL <-> Trip.available_seats t' = 0) /\
    (Trip.available_seats t' <> 0 -> Trip.status t' = TripStatus.ACTIVE))) /\
  (~ confirm_guards conductor r t -> exists e, confirm db = (Raised e, db)).
Proof.
  intros Hr Ht confirm r' t'.
  assert (Hok := confirm_reservation_accepted db rid conductor message now r t Hr Ht).
  assert (Hko := confirm_reservation_refused db rid conductor message now r t Hr Ht).
  destruct (confirmed_fields message now r) as (Hst & Hat & _).
  destruct (seats_taken_fields r t) as (Hav & _ & Hts).
  split; [|split; [|exact Hko]].
  - unfold succeeds, outcome. split.
    + intros [a Ha]. destruct (decide (confirm_guards conductor r t)) as [|Hn]; [assumption|].
      destruct (Hko Hn) as [e He]. unfold confirm in Ha. rewrite He in Ha. discriminate.
    + intros Hg. unfold confirm. rewrite (Hok Hg). eauto.
  - intros Hg. split; [exact (Hok Hg)|].
    repeat (split; [assumption|]).
    intros Hact. unfold t' in *. rewrite Hts. case_decide; split.
    + tauto.
    + intros Hne. contradiction.
    + rewrite Hact. split; [discriminate | intros; contradiction].
    + intros _. exact Hact.
Qed.

(** Scenario A: 2 of 4 seats confirmed, the trip stays ACTIVE with 2 left. *)
Lemma driver_confirmation_accept_witness :
  let db := db_with 4 TripStatus.ACTIVE 2 PENDING in
  exists r' db',
    ReservationService.confirm_reservation 1 rated_driver true None 20 db = (Ok r', db') /\
    Reservation.status r' = CONFIRMED /\
    trips db' !! 1 = Some (Trip.mk 1 1 1000 4 2 1000%float TripStatus.ACTIVE).
Proof.
  destruct (driver_confirmation_accept (db_with 4 TripStatus.ACTIVE 2 PENDING) 1
              rated_driver None 20 (reservation_1 2 PENDING)
              (Trip.mk 1 1 1000 4 4 1000%float TripStatus.ACTIVE) eq_refl eq_refl)
    as (_ & Hok & _).
  destruct Hok as (Hrun & Hst & _).
  { repeat split; simpl; lia. }
  eexists _, _. split; [exact Hrun|]. split; [exact Hst|]. reflexivity.
Defined.

(** *** Cancellation *)

Lemma cancelled_status_not_released (user : User.t) (reason : string) (now : Z)
    (r : Reservation.t) :
  ~ Reservation.status (cancelled user reason now r) ∈ [CONFIRMED; PAID].
Proof.
  unfold cancelled. simpl. rewrite elem_of_2.
  case_decide; intros [|]; discriminate.
Qed.

Lemma cancel_reservation_run (db : DB) (rid : Z) (user : User.t) (reason : string)
    (now : Z) (r : Reservation.t) :
  reservations db !! rid = Some r -> is_party user r db ->
  Reservation.can_be_cancelled r ->
  ReservationService.cancel_reservation rid user reason now db
  = (Ok (cancelled user reason now r),
     set_reservations (<[rid := cancelled user reason now r]> (reservations db)) db).
Proof.
  intros Hr Hp Hc. unfold ReservationService.cancel_reservation.
  unfold bind at 1. rewrite (get_reservation_by_id_ok db rid user r Hr Hp).
  pose proof (cancelled_status_not_released user reason now r) as Hn.
  unfold cancelled in *.
  destruct Hp as [Hp | (t & Ht & Hd)].
  - exec; try contradiction; try congruence; reflexivity.
  - exec; try contradiction; try congruence; reflexivity.
Qed.

(** C1 (the code departs from it): whatever the status of the cancelled
    reservation was, CONFIRMED and PAID included, [cancel_reservation] marks
    it cancelled by the caller, stamps [cancelled_at] and the reason, and
    leaves every trip as it was: the status has been overwritten when the
    release test reads it, so no seat is ever given back and a FULL trip
    stays FULL. *)
Theorem cancel_reservation_releases_no_seat (db : DB) (rid : Z) (user : User.t)
    (reason : string) (now : Z) (r : Reservation.t) :
  reservations db !! rid = Some r -> is_party user r db ->
  Reservation.status r ∈ [PENDING; CONFIRMED; PAID] ->
  let cancel := ReservationService.cancel_reservation rid user reason now in
  exists r',
    outcome cancel db = Ok r' /\
    reservations (state_after cancel db) = <[rid := r']> (reservations db) /\
    Reservation.status r'
    = (if decide (Reservation.passenger_id r = User.id user)
       then CANCELLED_BY_PASSENGER else CANCELLED_BY_DRIVER) /\
    Reservation.cancelled_at r' = Some now /\
    Reservation.cancellation_reason r' = Some reason /\
    trips (state_after cancel db) = trips db.
Proof.
  intros Hr Hp Hc cancel. exists (cancelled user reason now r).
  unfold cancel, outcome, state_after.
  rewrite (cancel_reservation_run db rid user reason now r Hr Hp Hc).
  repeat split.
Qed.

(** Scenario D on the code: the trip is FULL with 0 seats left, the
    passenger cancels the CONFIRMED 2-seat reservation; the trip is still
    FULL with 0 seats left. *)
Lemma cancel_reservation_releases_no_seat_witness :
  let db := db_with 0 TripStatus.FULL 2 CONFIRMED in
  let cancel := ReservationService.cancel_reservation 1 passenger_2 "change of plans" 30 in
  (exists r', outcome cancel db = Ok r' /\
              Reservation.status r' = CANCELLED_BY_PASSENGER) /\
  trips (state_after cancel db) !! 1
  = Some (Trip.mk 1 1 1000 4 0 1000%float TripStatus.FULL).
Proof.
  destruct (cancel_reservation_releases_no_seat (db_with 0 TripStatus.FULL 2 CONFIRMED)
              1 passenger_2 "change of plans" 30 (reservation_1 2 CONFIRMED)
              eq_refl (or_introl eq_refl))
    as (r' & Hok & _ & Hst & _ & _ & Htr).
  { rewrite !elem_of_cons. right; left; reflexivity. }
  cbv zeta. split.
  - exists r'. split; [exact Hok | exact Hst].
  - rewrite Htr. reflexivity.
Defined.

(** *** Creation *)

Lemma create_reservation_cases (rd : ReservationService.ReservationData)
    (passenger : User.t) (tid now : Z) (db : DB) :
  let seats := default 1 (ReservationService.rd_number_of_seats rd) in
  let create := ReservationService.create_reservation rd passenger tid now in
  (exists e, create db = (Raised e, db) /\
     forall t, trips db !! tid = Some t ->
       ~ create_guards passenger tid t seats now db) \/
  (exists t, trips db !! tid = Some t /\
     create_guards passenger tid t seats now db /\
     create db
     = (Ok (requested passenger tid t seats (reservation_seq db)),
        mkDB (users db) (trips db)
             (<[reservation_seq db := requested passenger tid t seats (reservation_seq db)]>
                (reservations db))
             (trip_seq db) (reservation_seq db + 1))).
Proof.
  intros seats create. unfold create, ReservationService.create_reservation,
    TripService.get_trip_by_id, add_reservation, requested, create_guards.
  destruct (trips db !! tid) as [t|] eqn:Ht.
  - unfold bind, get, ret, raise, raise_if. simpl. rewrite Ht. simpl.
    subst seats.
    repeat (case_decide; simpl);
      try (left; eexists; split; [reflexivity|];
           intros t0 Ht0; injection Ht0 as <-;
           intros (Hv & Hd & (Hs & Ha & Hdep) & Hseat & Hex); guard_contradiction).
    right. exists t. split; [reflexivity|]. split; [|reflexivity].
    assert (~ Trip.available_seats t <= 0) by tauto.
    assert (~ Trip.departure_datetime t <= now) by tauto.
    split; [|split; [assumption|split; [split; [|lia]|split; [lia|]]]].
    + assumption.
    + destruct (decide (Trip.status t = TripStatus.ACTIVE)); tauto.
    + destruct (ReservationService.existing_reservation tid (User.id passenger) db) eqn:He;
        [exfalso; eauto | reflexivity].
  - left. unfold bind, get, raise. simpl. rewrite Ht. eexists. split; [reflexivity|].
    intros t Ht0. discriminate.
Qed.

(** C4: [create_reservation] never changes a trip.  When it succeeds all
    the guards held, the returned reservation is PENDING and is the only row
    added; when it raises, the database is exactly as before; and it does
    raise as soon as one guard fails (phone not verified, passenger is the
    driver, trip not bookable, more seats requested than available, or an
    active reservation already exists for this trip and passenger). *)
Theorem create_reservation_leaves_trips (rd : ReservationService.ReservationData)
    (passenger : User.t) (tid now : Z) (db : DB) :
  let seats := default 1 (ReservationService.rd_number_of_seats rd) in
  let create := ReservationService.create_reservation rd passenger tid now in
  trips (state_after create db) = trips db /\
  match outcome create db with
  | Ok r =>
      Reservation.status r = PENDING /\
      (exists t, trips db !! tid = Some t /\
                 create_guards passenger tid t seats now db) /\
      state_after create db
      = mkDB (users db) (trips db) (<[reservation_seq db := r]> (reservations db))
             (trip_seq db) (reservation_seq db + 1)
  | Raised e => state_after create db = db
  end /\
  (forall t, trips db !! tid = Some t ->
             ~ create_guards passenger tid t seats now db ->
             exists e, create db = (Raised e, db)).
Proof.
  intros seats create. unfold outcome, state_after.
  destruct (create_reservation_cases rd passenger tid now db)
    as [(e & He & Hn) | (t & Ht & Hg & Hrun)]; unfold create, seats.
  - rewrite He. simpl. repeat split. intros t Ht Hng. eauto.
  - rewrite Hrun. simpl. repeat split; eauto.
    intros t0 Ht0 Hng. rewrite Ht in Ht0. injection Ht0 as <-. contradiction.
Qed.

(** Scenario B: 3 seats requested when 2 are left: an error, nothing changes. *)
Lemma create_reservation_leaves_trips_witness :
  let create := ReservationService.create_reservation
                  (ReservationService.mkReservationData (Some 3)) passenger_2 1 10 in
  (exists e, outcome create (db_trip_only 2) = Raised e) /\
  state_after create (db_trip_only 2) = db_trip_only 2.
Proof.
  destruct (create_reservation_leaves_trips
              (ReservationService.mkReservationData (Some 3)) passenger_2 1 10
              (db_trip_only 2)) as (_ & Hsame & Hraise).
  cbv zeta. split.
  - destruct (Hraise (Trip.mk 1 1 1000 4 2 1000%float TripStatus.ACTIVE) eq_refl)
      as [e He].
    + intros (_ & _ & _ & Hseats & _). simpl in Hseats. lia.
    + exists e. unfold outcome. now rewrite He.
  - exact Hsame.
Defined.

Example create_reservation_insufficient_seats :
  ReservationService.create_reservation
    (ReservationService.mkReservationData (Some 3)) passenger_2 1 10 (db_trip_only 2)
  = (Raised (HTTPException HTTP_400_BAD_REQUEST), db_trip_only 2).
Proof. reflexivity. Qed.

(** *** Pricing *)

(** C6: the reservation a successful [create_reservation] returns (and
    stores) carries total_price = price_per_seat of the trip * seats,
    platform_fee = total_price * 0.05, and the price_per_seat of the trip as
    it is at the call, in binary64 arithmetic. *)
Theorem reservation_price_snapshot (rd : ReservationService.ReservationData)
    (passenger : User.t) (tid now : Z) (db db' : DB) (t : Trip.t) (r : Reservation.t) :
  trips db !! tid = Some t ->
  ReservationService.create_reservation rd passenger tid now db = (Ok r, db') ->
  let seats := default 1 (ReservationService.rd_number_of_seats rd) in
  Reservation.number_of_seats r = seats /\
  Reservation.total_price r = (Trip.price_per_seat t * float_of_int seats)%float /\
  Reservation.platform_fee r = (Reservation.total_price r * 0.05)%float /\
  Reservation.price_per_seat r = Trip.price_per_seat t /\
  reservations db' !! Reservation.id r = Some r.
Proof.
  intros Ht Hrun seats.
  destruct (create_reservation_cases rd passenger tid now db)
    as [(e & He & _) | (t0 & Ht0 & _ & Hrun0)].
  - rewrite He in Hrun. discriminate.
  - rewrite Ht in Ht0. injection Ht0 as <-. rewrite Hrun0 in Hrun.
    injection Hrun as <- <-. simpl. repeat split. apply lookup_insert_eq.
Qed.

(** Scenario A: 2 seats at 1000 FCFA give total_price 2000 and platform_fee 100. *)
Lemma reservation_price_snapshot_witness :
  exists r db',
    ReservationService.create_reservation
      (ReservationService.mkReservationData (Some 2)) passenger_2 1 10 (db_trip_only 4)
    = (Ok r, db') /\
    Reservation.status r = PENDING /\
    Reservation.total_price r = 2000%float /\
    Reservation.platform_fee r = 100%float /\
    Reservation.price_per_seat r = 1000%float.
Proof.
  pose (t := Trip.mk 1 1 1000 4 4 1000%float TripStatus.ACTIVE).
  pose (r := requested passenger_2 1 t 2 1).
  pose (db' := mkDB (users (db_trip_only 4)) (trips (db_trip_only 4))
                    (<[1 := r]> (reservations (db_trip_only 4))) 2 2).
  assert (Hrun : ReservationService.create_reservation
                   (ReservationService.mkReservationData (Some 2)) passenger_2 1 10
                   (db_trip_only 4) = (Ok r, db')) by (vm_compute; reflexivity).
  exists r, db'. split; [exact Hrun|].
  destruct (reservation_price_snapshot
              (ReservationService.mkReservationData (Some 2)) passenger_2 1 10
              (db_trip_only 4) db' t r eq_refl Hrun)
    as (_ & Htot & Hfee & Hpr & _).
  split; [reflexivity|].
  split; [rewrite Htot; reflexivity|].
  split; [rewrite Hfee, Htot; reflexivity | rewrite Hpr; reflexivity].
Defined.

(** *** Rating *)

Lemma rate_trip_run (db : DB) (rid : Z) (user : User.t) (rating : Z)
    (comment : option string) (r : Reservation.t) (t : Trip.t) (u : User.t) :
  reservations db !! rid = Some r -> trips db !! Reservation.trip_id r = Some t ->
  Reservation.passenger_id r = User.id user \/ Trip.driver_id t = User.id user ->
  Reservation.status r = COMPLETED ->
  users db !! rating_target user r t = Some u -> User.total_ratings u + 1 <> 0 ->
  ReservationService.rate_trip rid user rating comment db
  = (Ok (rated user rating comment r),
     mkDB (<[rating_target user r t := with_rating rating u]> (users db)) (trips db)
          (<[rid := rated user rating comment r]> (reservations db))
          (trip_seq db) (reservation_seq db)).
Proof.
  intros Hr Ht Hp Hs Hu Hn. unfold ReservationService.rate_trip.
  assert (Hparty : is_party user r db) by (destruct Hp; [left | right]; eauto).
  unfold bind at 1. rewrite (get_reservation_by_id_ok db rid user r Hr Hparty).
  unfold rating_target, rated, with_rating, Reservation.can_be_rated in *.
  destruct (decide (Reservation.passenger_id r = User.id user)) as [Hpass|Hpass].
  - exec; try congruence. rewrite (update_rating_run _ u Hn). reflexivity.
  - destruct Hp as [|Hd]; [contradiction|].
    exec; try congruence. rewrite (update_rating_run _ u Hn). reflexivity.
Qed.

Lemma rated_fields (user : User.t) (rating : Z) (comment : option string)
    (r : Reservation.t) :
  Reservation.passenger_id (rated user rating comment r) = Reservation.passenger_id r /\
  Reservation.trip_id (rated user rating comment r) = Reservation.trip_id r /\
  Reservation.status (rated user rating comment r) = Reservation.status r.
Proof. unfold rated. case_decide; repeat split. Qed.

Lemma rated_twice (user : User.t) (rating1 rating2 : Z) (c1 c2 : option string)
    (r : Reservation.t) :
  rated user rating2 c2 (rated user rating1 c1 r) = rated user rating2 c2 r.
Proof.
  unfold rated. destruct r; simpl.
  destruct (decide (passenger_id = User.id user)); simpl;
    destruct (decide (passenger_id = User.id user)); first [reflexivity | contradiction].
Qed.

(** The model method has no write-once test either: a second call replaces
    the first rating. *)
Lemma rate_driver_overwrites (rating1 rating2 : Z) (c1 c2 : option string)
    (r : Reservation.t) :
  Reservation.status r = COMPLETED -> 1 <= rating1 <= 5 -> 1 <= rating2 <= 5 ->
  (Reservation.rate_driver rating1 c1 ;;; Reservation.rate_driver rating2 c2) r
  = (Ok true, Reservation.set_passenger_comment c2
                (Reservation.set_driver_rating (Some rating2) r)).
Proof.
  intros Hs H1 H2. unfold Reservation.rate_driver, Reservation.can_be_rated.
  run; first [reflexivity | tauto].
Qed.

(** C8 (as stated, refuted): the passenger of a COMPLETED reservation rates
    the driver 5 twice; the driver, at (4.0, 2) before, has 3 ratings after
    the first call and 4 after the second. *)
Lemma second_rating_counted_again :
  let db := db_with 0 TripStatus.FULL 2 COMPLETED in
  let db1 := state_after (ReservationService.rate_trip 1 passenger_2 5 None) db in
  let db2 := state_after (ReservationService.rate_trip 1 passenger_2 5 None) db1 in
  User.total_ratings <$> users db1 !! 1 = Some 3 /\
  User.total_ratings <$> users db2 !! 1 = Some 4 /\
  User.rating_average <$> users db2 !! 1 = Some 4.5%float /\
  ~ second_rating_ignored db 1 passenger_2 1 5 5.
Proof.
  cbv zeta. split; [vm_compute; reflexivity|].
  split; [vm_compute; reflexivity|].
  split; [vm_compute; reflexivity|].
  intros H. vm_compute in H. discriminate.
Qed.

(** C8 (amended): [rate_trip] has no write-once guard.  On a COMPLETED
    reservation a second call by the same party succeeds like the first,
    replaces the rating and comment stored on the reservation, and applies
    [update_rating] to the rated user once more: after the two calls the
    user has two more ratings and the average has been updated twice. *)
Theorem rating_applied_at_every_call (db : DB) (rid : Z) (user : User.t)
    (rating1 rating2 : Z) (c1 c2 : option string)
    (r : Reservation.t) (t : Trip.t) (u : User.t) :
  reservations db !! rid = Some r -> trips db !! Reservation.trip_id r = Some t ->
  Reservation.passenger_id r = User.id user \/ Trip.driver_id t = User.id user ->
  Reservation.status r = COMPLETED ->
  users db !! rating_target user r t = Some u -> 0 <= User.total_ratings u ->
  let rate1 := ReservationService.rate_trip rid user rating1 c1 in
  let rate2 := ReservationService.rate_trip rid user rating2 c2 in
  let db1 := state_after rate1 db in
  let db2 := state_after rate2 db1 in
  outcome rate1 db = Ok (rated user rating1 c1 r) /\
  outcome rate2 db1 = Ok (rated user rating2 c2 r) /\
  reservations db2 !! rid = Some (rated user rating2 c2 r) /\
  users db1 !! rating_target user r t = Some (with_rating rating1 u) /\
  users db2 !! rating_target user r t = Some (with_rating rating2 (with_rating rating1 u)) /\
  User.total_ratings (with_rating rating2 (with_rating rating1 u))
  = User.total_ratings u + 2.
Proof.
  intros Hr Ht Hp Hs Hu Hn rate1 rate2 db1 db2.
  assert (H1 := rate_trip_run db rid user rating1 c1 r t u Hr Ht Hp Hs Hu ltac:(lia)).
  destruct (rated_fields user rating1 c1 r) as (Hpid & Htid & Hst).
  assert (Hdb1 : db1 = mkDB (<[rating_target user r t := with_rating rating1 u]> (users db))
                            (trips db) (<[rid := rated user rating1 c1 r]> (reservations db))
                            (trip_seq db) (reservation_seq db))
    by (unfold db1, state_after, rate1; now rewrite H1).
  assert (Htarget : rating_target user (rated user rating1 c1 r) t = rating_target user r t)
    by (unfold rating_target; now rewrite Hpid).
  assert (H2 : rate2 db1 = _) by
    (apply (rate_trip_run db1 rid user rating2 c2 (rated user rating1 c1 r) t
              (with_rating rating1 u));
     [ rewrite Hdb1; apply lookup_insert_eq
     | rewrite Htid, Hdb1; exact Ht
     | rewrite Hpid; exact Hp
     | rewrite Hst; exact Hs
     | rewrite Htarget, Hdb1; apply lookup_insert_eq
     | simpl; lia ]).
  rewrite rated_twice, Htarget in H2.
  unfold db2, state_after, outcome. rewrite H2. unfold rate1. rewrite H1. simpl.
  split; [reflexivity|]. split; [reflexivity|].
  split; [apply lookup_insert_eq|].
  split; [rewrite Hdb1; apply lookup_insert_eq|].
  split; [apply lookup_insert_eq | lia].
Qed.

Lemma rating_applied_at_every_call_witness :
  let db := db_with 0 TripStatus.FULL 2 COMPLETED in
  let db1 := state_after (ReservationService.rate_trip 1 passenger_2 5 None) db in
  let db2 := state_after (ReservationService.rate_trip 1 passenger_2 4 None) db1 in
  (Reservation.driver_rating <$> reservations db2 !! 1) = Some (Some 4) /\
  (User.total_ratings <$> users db2 !! 1) = Some 4.
Proof.
  destruct (rating_applied_at_every_call (db_with 0 TripStatus.FULL 2 COMPLETED) 1
              passenger_2 5 4 None None (reservation_1 2 COMPLETED)
              (Trip.mk 1 1 1000 4 0 1000%float TripStatus.FULL) rated_driver
              eq_refl eq_refl (or_introl eq_refl) eq_refl eq_refl ltac:(simpl; lia))
    as (_ & _ & Hres & _ & Husr & _).
  cbv zeta in *. split.
  - rewrite Hres. reflexivity.
  - exact (f_equal (fmap User.total_ratings) Husr).
Defined.

End ReservationLifecycle.

(** ** Trip creation *)

Section TripCreation.
Import TripStatus.

Lemma active_trips_count_insert (d : Z) (db : DB) (k : Z) (t : Trip.t) :
  (TripService.active_trips_count d (set_trips (<[k := t]> (trips db)) db)
   <= S (TripService.active_trips_count d db))%nat /\
  (Trip.driver_id t <> d ->
   TripService.active_trips_count d (set_trips (<[k := t]> (trips db)) db)
   <= TripService.active_trips_count d db)%nat.
Proof.
  unfold TripService.active_trips_count. simpl.
  rewrite map_filter_insert. simpl.
  assert (Hdel : forall P `{!forall x, Decision (P x)},
            (size (filter P (delete k (trips db))) <= size (filter P (trips db)))%nat).
  { intros P HP. apply map_subseteq_size, map_filter_subseteq_mono, delete_subseteq. }
  case_decide as HP.
  - split.
    + rewrite map_size_insert. destruct (filter _ (trips db) !! k); simpl; lia.
    + intros Hne. destruct HP as [Hd _]. contradiction.
  - split; [etransitivity; [apply Hdel | lia] | intros _; apply Hdel].
Qed.

Lemma create_trip_cases (trip_data : TripService.TripData) (driver : User.t) (db : DB) :
  let create := TripService.create_trip trip_data driver in
  let count := TripService.active_trips_count (User.id driver) db in
  (~ User.can_create_trip driver /\
   create db = (Raised (HTTPException HTTP_403_FORBIDDEN), db)) \/
  (User.can_create_trip driver /\ (count >= 5)%nat /\
   create db = (Raised (HTTPException HTTP_400_BAD_REQUEST), db)) \/
  (User.can_create_trip driver /\ (count < 5)%nat /\
   exists new_trip db',
     create db = (Ok new_trip, db') /\
     Trip.id new_trip = trip_seq db /\ Trip.driver_id new_trip = User.id driver /\
     Trip.status new_trip = ACTIVE /\
     Trip.available_seats new_trip = Trip.total_seats new_trip /\
     trips db' = <[trip_seq db := new_trip]> (trips db) /\
     reservations db' = reservations db).
Proof.
  intros create count. subst count.
  unfold create, TripService.create_trip, add_trip.
  unfold bind, get, modify, ret, raise, raise_if. simpl.
  destruct (decide (~ User.can_create_trip driver)) as [Hn|Hy]; simpl.
  - left. split; [assumption | reflexivity].
  - right. apply dec_stable in Hy.
    destruct (decide (TripService.active_trips_count (User.id driver) db >= 5)%nat)
      as [Hge|Hlt]; simpl.
    + left. split; [assumption | split; [assumption | reflexivity]].
    + right. split; [assumption|]. split; [lia|].
      eexists _, _. split; [reflexivity|]. simpl. repeat split.
Qed.

Lemma active_trips_count_trips (d : Z) (db1 db2 : DB) :
  trips db1 = trips db2 ->
  TripService.active_trips_count d db1 = TripService.active_trips_count d db2.
Proof. unfold TripService.active_trips_count. now intros ->. Qed.

Lemma create_trip_keeps_limit (trip_data : TripService.TripData) (driver : User.t)
    (db : DB) (d : Z) :
  (TripService.active_trips_count d db <= 5)%nat ->
  (TripService.active_trips_count d
     (state_after (TripService.create_trip trip_data driver) db) <= 5)%nat.
Proof.
  intros Hle. unfold state_after.
  destruct (create_trip_cases trip_data driver db)
    as [(_ & ->) | [(_ & _ & ->) | (_ & Hlt & new_trip & db' & -> & _ & Hd & _ & _ & Htr & _)]];
    simpl; try assumption.
  rewrite (active_trips_count_trips d db' (set_trips (<[trip_seq db := new_trip]> (trips db)) db))
    by exact Htr.
  destruct (active_trips_count_insert d db (trip_seq db) new_trip) as [Hs Hne].
  destruct (decide (User.id driver = d)) as [<-|Hother].
  - lia.
  - etransitivity; [apply Hne; congruence | exact Hle].
Qed.

Lemma create_trips_keep_limit (requests : list (TripService.TripData * User.t)) (db : DB) :
  at_most_five_active db -> at_most_five_active (create_trips requests db).
Proof.
  revert db. induction requests as [|[trip_data driver] rest IH]; intros db Hdb; simpl.
  - exact Hdb.
  - apply IH. intros d. apply create_trip_keeps_limit, Hdb.
Qed.

(** C10 (as stated, refuted): five trips published, trip 1 started, a sixth
    trip published, then the pending request for the 4 seats of trip 1
    accepted: [confirm_reservation] marks trip 1 FULL again and the driver
    holds six trips in status ACTIVE or FULL.  Every call succeeds. *)
Lemma six_active_trips_reached :
  at_most_five_active db_users_only /\
  succeeds six_active_trips_run db_users_only /\
  TripService.active_trips_count 1 (state_after six_active_trips_run db_users_only) = 6%nat /\
  ~ at_most_five_active (state_after six_active_trips_run db_users_only).
Proof.
  split; [|split; [|split]].
  - intros d. unfold TripService.active_trips_count. simpl.
    rewrite map_filter_empty, map_size_empty. lia.
  - eexists. vm_compute. reflexivity.
  - vm_compute. reflexivity.
  - intros H. specialize (H 1). vm_compute in H. lia.
Qed.

(** C10 (amended): [create_trip] raises an error and leaves the database
    unchanged when the driver already has 5 or more trips in status ACTIVE
    or FULL (error 400 for an eligible driver); it succeeds only below 5, so
    trip creation never takes a driver above 5 concurrently active trips,
    over any sequence of creations; the test comes before any mutation.
    The limit is a guard of [create_trip] alone. *)
Theorem create_trip_active_limit (trip_data : TripService.TripData) (driver : User.t)
    (db : DB) :
  let create := TripService.create_trip trip_data driver in
  let count := TripService.active_trips_count (User.id driver) in
  ((count db >= 5)%nat -> exists e, create db = (Raised e, db)) /\
  (User.can_create_trip driver -> (count db >= 5)%nat ->
   create db = (Raised (HTTPException HTTP_400_BAD_REQUEST), db)) /\
  (forall e, outcome create db = Raised e -> state_after create db = db) /\
  (succeeds create db -> (count db < 5)%nat) /\
  (forall d, (TripService.active_trips_count d db <= 5)%nat ->
             (TripService.active_trips_count d (state_after create db) <= 5)%nat) /\
  (forall requests, at_most_five_active db ->
                    at_most_five_active (create_trips requests db)).
Proof.
  intros create count. unfold succeeds, outcome, state_after, create, count.
  pose proof (create_trip_cases trip_data driver db) as Hcases. cbv zeta in Hcases.
  split; [|split; [|split; [|split; [|split]]]].
  - intros Hge.
    destruct Hcases as [(_ & ->) | [(_ & _ & ->) | (_ & Hlt & _)]]; eauto. lia.
  - intros Hcan Hge.
    destruct Hcases as [(Hn & _) | [(_ & _ & ->) | (_ & Hlt & _)]];
      [contradiction | reflexivity | lia].
  - intros e.
    destruct Hcases as [(_ & ->) | [(_ & _ & ->) | (_ & _ & t & db' & -> & _)]];
      simpl; [reflexivity | reflexivity | discriminate].
  - intros [a Ha].
    destruct Hcases as [(_ & He) | [(_ & _ & He) | (_ & Hlt & _)]];
      [rewrite He in Ha; discriminate | rewrite He in Ha; discriminate | exact Hlt].
  - intros d. apply create_trip_keeps_limit.
  - intros requests. apply create_trips_keep_limit.
Qed.

(** With five active trips the sixth creation is refused with error 400. *)
Lemma create_trip_active_limit_witness :
  TripService.active_trips_count 1 db_five_active = 5%nat /\
  TripService.create_trip four_seats rated_driver db_five_active
  = (Raised (HTTPException HTTP_400_BAD_REQUEST), db_five_active).
Proof.
  split; [vm_compute; reflexivity|].
  destruct (create_trip_active_limit four_seats rated_driver db_five_active)
    as (_ & H400 & _).
  apply H400; by_evaluation.
Defined.

End TripCreation.

(** * Further properties of the services *)

(** Two lookups of one key give one row. *)
Ltac same_rows :=
  repeat match goal with
         | H1 : ?x = Some ?a, H2 : ?x = Some ?b |- _ =>
             first [ constr_eq a b; clear H2
                   | assert (b = a) by congruence; subst b; clear H2
                   | assert (a = b) by congruence; subst a; clear H2 ]
         | H1 : ?x = Some _, H2 : ?x = None |- _ => congruence
         end.

(** ** Access to a reservation *)

Section Access.
Import ReservationStatus.

Lemma on_trip_none {A : Type} (k : Z) (m : M Trip.t A) (db : DB) :
  trips db !! k = None -> on_trip k m db = (Raised AttributeError, db).
Proof. intros H. unfold on_trip. now rewrite H. Qed.

Lemma on_user_none {A : Type} (k : Z) (m : M User.t A) (db : DB) :
  users db !! k = None -> on_user k m db = (Raised AttributeError, db).
Proof. intros H. unfold on_user. now rewrite H. Qed.

Lemma get_reservation_by_id_cases (rid : Z) (user : User.t) (db : DB) :
  access_result rid user db (ReservationService.get_reservation_by_id rid user db).
Proof.
  destruct (reservations db !! rid) as [r|] eqn:Hr.
  - destruct (decide (Reservation.passenger_id r = User.id user)) as [Hp|Hp].
    + rewrite (get_reservation_by_id_ok db rid user r Hr (or_introl Hp)).
      apply access_granted; [assumption | now left].
    + destruct (trips db !! Reservation.trip_id r) as [t|] eqn:Ht.
      * destruct (decide (Trip.driver_id t = User.id user)) as [Hd|Hd].
        -- assert (Hparty : is_party user r db) by (right; eauto).
           rewrite (get_reservation_by_id_ok db rid user r Hr Hparty).
           now apply access_granted.
        -- unfold ReservationService.get_reservation_by_id.
           exec; try contradiction.
           all: apply (access_forbidden _ _ _ r t); assumption.
      * unfold ReservationService.get_reservation_by_id.
        unfold bind, get. simpl. rewrite Hr.
        rewrite decide_True by assumption.
        unfold bind. rewrite (on_trip_none _ _ _ Ht).
        eapply access_dangling; eauto.
  - unfold ReservationService.get_reservation_by_id, bind, get, raise. simpl.
    rewrite Hr. now apply access_not_found.
Qed.

(** X1: [get_reservation_by_id] is a pure read: it never changes the
    database.  It returns a reservation exactly when that reservation is the
    row stored under the id and the caller is its passenger or the driver of
    its trip; it answers 404 exactly for an unknown id, and 403 for a caller
    who is neither (the trip being there). *)
Theorem reservation_access_control (rid : Z) (user : User.t) (db : DB) :
  let access := ReservationService.get_reservation_by_id rid user in
  state_after access db = db /\
  (forall r, outcome access db = Ok r <->
             reservations db !! rid = Some r /\ is_party user r db) /\
  (outcome access db = Raised (HTTPException HTTP_404_NOT_FOUND) <->
   reservations db !! rid = None) /\
  (forall r t, reservations db !! rid = Some r ->
               trips db !! Reservation.trip_id r = Some t ->
               Reservation.passenger_id r <> User.id user ->
               Trip.driver_id t <> User.id user ->
               outcome access db = Raised (HTTPException HTTP_403_FORBIDDEN)).
Proof.
  intros access. unfold access, outcome, state_after.
  destruct (get_reservation_by_id_cases rid user db)
    as [r Hr Hp | Hr | r t Hr Hp Ht Hd | r Hr Hp Ht]; simpl.
  - split; [reflexivity|]. split; [|split].
    + intros r0. split.
      * intros [= <-]. now split.
      * intros [Hr0 _]. congruence.
    + split; [discriminate | congruence].
    + intros r0 t0 Hr0 Ht0 Hp0 Hd0. exfalso.
      assert (r0 = r) by congruence. subst r0.
      destruct Hp as [Hp | (t1 & Ht1 & Hd1)]; [contradiction|].
      assert (t1 = t0) by congruence. subst t1. contradiction.
  - split; [reflexivity|]. split; [|split].
    + intros r0. split; [discriminate | intros [Hr0 _]; congruence].
    + tauto.
    + intros r0 t0 Hr0. congruence.
  - split; [reflexivity|]. split; [|split].
    + intros r0. split; [discriminate|].
      intros [Hr0 Hp0]. assert (r0 = r) by congruence. subst r0.
      destruct Hp0 as [Hp0 | (t1 & Ht1 & Hd1)]; [contradiction|].
      assert (t1 = t) by congruence. subst t1. contradiction.
    + split; [discriminate | congruence].
    + reflexivity.
  - split; [reflexivity|]. split; [|split].
    + intros r0. split; [discriminate|].
      intros [Hr0 Hp0]. assert (r0 = r) by congruence. subst r0.
      destruct Hp0 as [Hp0 | (t1 & Ht1 & Hd1)]; [contradiction | congruence].
    + split; [discriminate | congruence].
    + intros r0 t0 Hr0 Ht0. assert (r0 = r) by congruence. subst r0. congruence.
Qed.

End Access.

(** ** Driver confirmation and refusal *)

Section Confirmation.
Import ReservationStatus.

Lemma confirm_reservation_refusal_run (db : DB) (rid : Z) (conductor : User.t)
    (message : option string) (now : Z) (r : Reservation.t) (t : Trip.t) :
  reservations db !! rid = Some r -> trips db !! Reservation.trip_id r = Some t ->
  Trip.driver_id t = User.id conductor -> Reservation.status r = PENDING ->
  ReservationService.confirm_reservation rid conductor false message now db
  = (Ok (refused message now r),
     set_reservations (<[rid := refused message now r]> (reservations db)) db).
Proof.
  intros Hr Ht Hd Hs. unfold ReservationService.confirm_reservation, refused.
  exec; try contradiction; reflexivity.
Qed.

Lemma confirm_reservation_cases (rid : Z) (conductor : User.t) (accept : bool)
    (message : option string) (now : Z) (db : DB) :
  confirm_result rid conductor accept message now db
    (ReservationService.confirm_reservation rid conductor accept message now db).
Proof.
  destruct (reservations db !! rid) as [r|] eqn:Hr.
  - destruct (trips db !! Reservation.trip_id r) as [t|] eqn:Ht.
    + destruct (decide (Trip.driver_id t = User.id conductor)) as [Hd|Hd].
      * destruct (decide (Reservation.status r = PENDING)) as [Hs|Hs].
        -- destruct accept.
           ++ destruct (decide (Trip.available_seats t < Reservation.number_of_seats r))
                as [Hlt|Hge].
              ** unfold ReservationService.confirm_reservation.
                 exec; try contradiction; try lia.
                 apply (confirm_no_seats _ _ _ _ _ _ r t); assumption || reflexivity.
              ** assert (Hg : confirm_guards conductor r t)
                   by (unfold confirm_guards; repeat split; [assumption.. | lia]).
                 rewrite (confirm_reservation_accepted db rid conductor message now r t
                            Hr Ht Hg).
                 now apply confirm_accepted.
           ++ rewrite (confirm_reservation_refusal_run db rid conductor message now r t
                         Hr Ht Hd Hs).
              now apply (confirm_refused _ _ _ _ _ _ r t).
        -- unfold ReservationService.confirm_reservation.
           exec; try contradiction.
           all: apply (confirm_not_pending _ _ _ _ _ _ r t); assumption.
      * unfold ReservationService.confirm_reservation.
        exec; try contradiction.
        all: apply (confirm_forbidden _ _ _ _ _ _ r t); assumption.
    + unfold ReservationService.confirm_reservation.
      unfold bind, get. simpl. rewrite Hr.
      unfold bind. rewrite (on_trip_none _ _ _ Ht).
      eapply confirm_dangling; eauto.
  - unfold ReservationService.confirm_reservation, bind, get, raise. simpl.
    rewrite Hr. now apply confirm_not_found.
Qed.

Lemma refused_fields (message : option string) (now : Z) (r : Reservation.t) :
  Reservation.status (refused message now r) = CANCELLED_BY_DRIVER /\
  Reservation.cancelled_at (refused message now r) = Some now /\
  (truthy message ->
   Reservation.cancellation_reason (refused message now r) = message /\
   Reservation.driver_notes (refused message now r) = message) /\
  (~ truthy message ->
   Reservation.cancellation_reason (refused message now r)
   = Some "Refusé par le conducteur"%string /\
   Reservation.driver_notes (refused message now r) = Reservation.driver_notes r).
Proof.
  unfold refused. destruct (decide (truthy message)) as [Hm|Hm]; simpl;
    repeat split; intros; first [reflexivity | contradiction].
Qed.

(** X2: with [accept=False], the confirmation of an existing reservation
    succeeds exactly when the caller is the driver of its trip and the
    status is PENDING, whatever the number of seats left.  The reservation
    becomes CANCELLED_BY_DRIVER with [cancelled_at] stamped; a non-empty
    message becomes both the cancellation reason and the driver notes, and
    without one the reason is the default text; no trip and no user row
    changes.  Otherwise an error is raised and nothing changes. *)
Theorem driver_refusal (db : DB) (rid : Z) (conductor : User.t)
    (message : option string) (now : Z) (r : Reservation.t) (t : Trip.t) :
  reservations db !! rid = Some r -> trips db !! Reservation.trip_id r = Some t ->
  let refuse := ReservationService.confirm_reservation rid conductor false message now in
  let r' := refused message now r in
  (succeeds refuse db <->
   Trip.driver_id t = User.id conductor /\ Reservation.status r = PENDING) /\
  (Trip.driver_id t = User.id conductor /\ Reservation.status r = PENDING ->
   refuse db = (Ok r', set_reservations (<[rid := r']> (reservations db)) db) /\
   Reservation.status r' = CANCELLED_BY_DRIVER /\
   Reservation.cancelled_at r' = Some now /\
   (truthy message ->
    Reservation.cancellation_reason r' = message /\
    Reservation.driver_notes r' = message) /\
   (~ truthy message ->
    Reservation.cancellation_reason r' = Some "Refusé par le conducteur"%string /\
    Reservation.driver_notes r' = Reservation.driver_notes r)) /\
  (~ (Trip.driver_id t = User.id conductor /\ Reservation.status r = PENDING) ->
   exists e, refuse db = (Raised e, db)).
Proof.
  intros Hr Ht refuse r'. unfold refuse, succeeds, outcome.
  pose proof (confirm_reservation_cases rid conductor false message now db) as Hc.
  split; [|split].
  - destruct Hc; same_rows; simpl; split;
      try (intros [a Ha]; discriminate); try (intros [? ?]; congruence);
      try discriminate; eauto.
  - intros [Hd Hs].
    split; [exact (confirm_reservation_refusal_run db rid conductor message now r t
                     Hr Ht Hd Hs)|].
    apply refused_fields.
  - intros Hn. destruct Hc; same_rows; eauto; try discriminate. tauto.
Qed.

(** A request for 2 seats on a trip with no seat left is refused without a
    message: default reason, trip untouched. *)
Lemma driver_refusal_witness :
  let db := db_with 0 TripStatus.FULL 2 PENDING in
  exists r' db',
    ReservationService.confirm_reservation 1 rated_driver false None 20 db = (Ok r', db') /\
    Reservation.status r' = CANCELLED_BY_DRIVER /\
    Reservation.cancellation_reason r' = Some "Refusé par le conducteur"%string /\
    trips db' = trips db.
Proof.
  destruct (driver_refusal (db_with 0 TripStatus.FULL 2 PENDING) 1 rated_driver None 20
              (reservation_1 2 PENDING) (Trip.mk 1 1 1000 4 0 1000%float TripStatus.FULL)
              eq_refl eq_refl) as (_ & Hok & _).
  destruct Hok as (Hrun & Hst & _ & _ & Hdef); [split; reflexivity|].
  eexists _, _. split; [exact Hrun|]. split; [exact Hst|].
  split; [apply Hdef; simpl; tauto | reflexivity].
Defined.

(** X3: the errors of [confirm_reservation], for both values of [accept]:
    404 for an unknown reservation; 403 for a caller who is not the driver of
    the trip, whatever the status; 400 for the driver when the status is not
    PENDING, and when accepting more seats than are left.  Whenever it
    raises, the database is unchanged. *)
Theorem confirm_reservation_errors (rid : Z) (conductor : User.t) (accept : bool)
    (message : option string) (now : Z) (db : DB) :
  let confirm := ReservationService.confirm_reservation rid conductor accept message now in
  (reservations db !! rid = None ->
   confirm db = (Raised (HTTPException HTTP_404_NOT_FOUND), db)) /\
  (forall r t, reservations db !! rid = Some r ->
               trips db !! Reservation.trip_id r = Some t ->
               Trip.driver_id t <> User.id conductor ->
               confirm db = (Raised (HTTPException HTTP_403_FORBIDDEN), db)) /\
  (forall r t, reservations db !! rid = Some r ->
               trips db !! Reservation.trip_id r = Some t ->
               Trip.driver_id t = User.id conductor ->
               Reservation.status r <> PENDING \/
               (accept = true /\ Trip.available_seats t < Reservation.number_of_seats r) ->
               confirm db = (Raised (HTTPException HTTP_400_BAD_REQUEST), db)) /\
  (forall e, outcome confirm db = Raised e -> state_after confirm db = db).
Proof.
  intros confirm. unfold confirm, outcome, state_after.
  pose proof (confirm_reservation_cases rid conductor accept message now db) as Hc.
  split; [|split; [|split]].
  - intros Hr. destruct Hc; same_rows; reflexivity.
  - intros r t Hr Ht Hd. destruct Hc; same_rows; try reflexivity; try contradiction.
    unfold confirm_guards in *. tauto.
  - intros r t Hr Ht Hd Hbad.
    destruct Hc; same_rows; try reflexivity; try contradiction;
      unfold confirm_guards in *; destruct Hbad as [Hs | [Ha Hlt]];
      first [tauto | lia | congruence].
  - intros e. destruct Hc; simpl; first [reflexivity | discriminate].
Qed.

End Confirmation.

(** ** The other transitions, case by case *)

Section Transitions.
Import ReservationStatus.

Ltac exec_any_step :=
  first
    [ erewrite on_trip_none by lookup_solve
    | erewrite on_user_none by lookup_solve
    | exec_step ].

Ltac exec_any := unfold bind, ret, raise, get; simpl; repeat exec_any_step.

(** A service that starts with [get_reservation_by_id] raises when access
    is refused. *)
Lemma access_refused_propagates {A : Type} (rid : Z) (user : User.t) (db : DB)
    (k : Reservation.t -> M DB A) (a : A) (db' : DB) :
  bind (ReservationService.get_reservation_by_id rid user) k db = (Ok a, db') ->
  exists r, reservations db !! rid = Some r /\ is_party user r db /\ k r db = (Ok a, db').
Proof.
  unfold bind at 1.
  destruct (get_reservation_by_id_cases rid user db); intros Hk;
    first [discriminate | eauto].
Qed.

Lemma cancel_reservation_ok_inv (rid : Z) (user : User.t) (reason : string) (now : Z)
    (db db' : DB) (x : Reservation.t) :
  ReservationService.cancel_reservation rid user reason now db = (Ok x, db') ->
  exists r, reservations db !! rid = Some r /\ is_party user r db /\
            Reservation.can_be_cancelled r /\
            x = cancelled user reason now r /\
            db' = set_reservations (<[rid := x]> (reservations db)) db.
Proof.
  intros Hrun.
  destruct (access_refused_propagates _ _ _ _ _ _ Hrun) as (r & Hr & Hp & Hk).
  exists r. split; [assumption|]. split; [assumption|].
  destruct (decide (Reservation.can_be_cancelled r)) as [Hc|Hc].
  - rewrite (cancel_reservation_run db rid user reason now r Hr Hp Hc) in Hrun.
    injection Hrun as <- <-. auto.
  - exfalso. revert Hk. exec_any; first [discriminate | contradiction].
Qed.

Lemma mark_reservation_as_started_ok_inv (rid : Z) (user : User.t) (now : Z)
    (db db' : DB) (x : Reservation.t) :
  ReservationService.mark_reservation_as_started rid user now db = (Ok x, db') ->
  exists r, reservations db !! rid = Some r /\ is_party user r db /\
            Reservation.status r = CONFIRMED /\
            x = started now r /\
            db' = set_reservations (<[rid := x]> (reservations db)) db.
Proof.
  intros Hrun.
  destruct (access_refused_propagates _ _ _ _ _ _ Hrun) as (r & Hr & Hp & Hk).
  exists r. split; [assumption|]. split; [assumption|].
  destruct (decide (Reservation.status r = CONFIRMED)) as [Hc|Hc].
  - rewrite (mark_reservation_as_started_confirmed db rid user now r Hr Hp Hc) in Hrun.
    injection Hrun as <- <-. auto.
  - rewrite (mark_reservation_as_started_other db rid user now r Hr Hp Hc) in Hrun.
    discriminate.
Qed.

Lemma mark_reservation_as_completed_run (rid : Z) (user : User.t) (now : Z)
    (db : DB) (r : Reservation.t) (p : User.t) :
  reservations db !! rid = Some r -> is_party user r db ->
  Reservation.status r = STARTED ->
  users db !! Reservation.passenger_id r = Some p ->
  ReservationService.mark_reservation_as_completed rid user now db
  = (Ok (completed now r),
     mkDB (<[Reservation.passenger_id r :=
               User.set_trips_as_passenger (User.trips_as_passenger p + 1) p]> (users db))
          (trips db) (<[rid := completed now r]> (reservations db))
          (trip_seq db) (reservation_seq db)).
Proof.
  intros Hr Hp Hs Hu. unfold ReservationService.mark_reservation_as_completed.
  unfold bind at 1. rewrite (get_reservation_by_id_ok db rid user r Hr Hp).
  unfold completed. exec; [congruence | reflexivity].
Qed.

Lemma mark_reservation_as_completed_ok_inv (rid : Z) (user : User.t) (now : Z)
    (db db' : DB) (x : Reservation.t) :
  ReservationService.mark_reservation_as_completed rid user now db = (Ok x, db') ->
  exists r p, reservations db !! rid = Some r /\ is_party user r db /\
              Reservation.status r = STARTED /\
              users db !! Reservation.passenger_id r = Some p /\
              x = completed now r /\
              db' = mkDB (<[Reservation.passenger_id r :=
                              User.set_trips_as_passenger (User.trips_as_passenger p + 1) p]>
                            (users db))
                         (trips db) (<[rid := x]> (reservations db))
                         (trip_seq db) (reservation_seq db).
Proof.
  intros Hrun.
  destruct (access_refused_propagates _ _ _ _ _ _ Hrun) as (r & Hr & Hp & Hk).
  destruct (decide (Reservation.status r = STARTED)) as [Hs|Hs].
  - destruct (users db !! Reservation.passenger_id r) as [p|] eqn:Hu.
    + exists r, p.
      rewrite (mark_reservation_as_completed_run rid user now db r p Hr Hp Hs Hu) in Hrun.
      injection Hrun as <- <-. auto 10.
    + exfalso. revert Hk. exec_any; first [discriminate | contradiction].
  - exfalso. revert Hk. exec_any; first [discriminate | contradiction].
Qed.

Lemma rate_trip_ok_inv (rid : Z) (user : User.t) (rating : Z) (comment : option string)
    (db db' : DB) (x : Reservation.t) :
  ReservationService.rate_trip rid user rating comment db = (Ok x, db') ->
  exists r t u,
    reservations db !! rid = Some r /\ trips db !! Reservation.trip_id r = Some t /\
    (Reservation.passenger_id r = User.id user \/ Trip.driver_id t = User.id user) /\
    Reservation.status r = COMPLETED /\
    users db !! rating_target user r t = Some u /\ User.total_ratings u + 1 <> 0 /\
    x = rated user rating comment r /\
    db' = mkDB (<[rating_target user r t := with_rating rating u]> (users db)) (trips db)
               (<[rid := x]> (reservations db)) (trip_seq db) (reservation_seq db).
Proof.
  intros Hrun.
  destruct (access_refused_propagates _ _ _ _ _ _ Hrun) as (r & Hr & Hp & Hk).
  destruct (decide (Reservation.status r = COMPLETED)) as [Hs|Hs];
    [|exfalso; revert Hk; unfold Reservation.can_be_rated; exec_any;
      first [discriminate | contradiction]].
  destruct (trips db !! Reservation.trip_id r) as [t|] eqn:Ht.
  - assert (Hp' : Reservation.passenger_id r = User.id user \/ Trip.driver_id t = User.id user).
    { destruct Hp as [|(t0 & Ht0 & Hd0)]; [now left | right; congruence]. }
    destruct (users db !! rating_target user r t) as [u|] eqn:Hu.
    + destruct (decide (User.total_ratings u + 1 = 0)) as [Hz|Hz].
      * exfalso. revert Hk. unfold rating_target, Reservation.can_be_rated in *.
        assert (Hm1 : User.total_ratings u = -1) by lia.
        exec_any; rewrite ?(update_rating_zero_division _ u Hm1);
          first [discriminate | contradiction | tauto].
      * exists r, t, u.
        rewrite (rate_trip_run db rid user rating comment r t u Hr Ht Hp' Hs Hu Hz) in Hrun.
        injection Hrun as <- <-. auto 10.
    + exfalso. revert Hk. unfold rating_target, Reservation.can_be_rated in *.
      exec_any; first [discriminate | contradiction | tauto].
  - exfalso. destruct Hp as [Hp|(t0 & Ht0 & _)]; [|congruence].
    revert Hk. unfold Reservation.can_be_rated. exec_any;
      first [discriminate | contradiction].
Qed.

Lemma cancel_reservation_too_late (rid : Z) (user : User.t) (reason : string) (now : Z)
    (db : DB) (r : Reservation.t) :
  reservations db !! rid = Some r -> is_party user r db ->
  ~ Reservation.can_be_cancelled r ->
  ReservationService.cancel_reservation rid user reason now db
  = (Raised (HTTPException HTTP_400_BAD_REQUEST), db).
Proof.
  intros Hr Hp Hc. unfold ReservationService.cancel_reservation.
  unfold bind at 1. rewrite (get_reservation_by_id_ok db rid user r Hr Hp).
  exec; first [reflexivity | contradiction].
Qed.

Lemma mark_reservation_as_completed_not_started (rid : Z) (user : User.t) (now : Z)
    (db : DB) (r : Reservation.t) :
  reservations db !! rid = Some r -> is_party user r db ->
  Reservation.status r <> STARTED ->
  ReservationService.mark_reservation_as_completed rid user now db
  = (Raised (HTTPException HTTP_400_BAD_REQUEST), db).
Proof.
  intros Hr Hp Hs. unfold ReservationService.mark_reservation_as_completed.
  unfold bind at 1. rewrite (get_reservation_by_id_ok db rid user r Hr Hp).
  exec; first [reflexivity | contradiction].
Qed.

Lemma rate_trip_not_completed (rid : Z) (user : User.t) (rating : Z)
    (comment : option string) (db : DB) (r : Reservation.t) :
  reservations db !! rid = Some r -> is_party user r db ->
  Reservation.status r <> COMPLETED ->
  ReservationService.rate_trip rid user rating comment db
  = (Raised (HTTPException HTTP_400_BAD_REQUEST), db).
Proof.
  intros Hr Hp Hs. unfold ReservationService.rate_trip, Reservation.can_be_rated.
  unfold bind at 1. rewrite (get_reservation_by_id_ok db rid user r Hr Hp).
  exec; first [reflexivity | contradiction].
Qed.

(** A service that starts with [get_reservation_by_id] passes its refusal on. *)
Lemma access_refusal_passed_on {A : Type} (rid : Z) (user : User.t) (db : DB)
    (k : Reservation.t -> M DB A) (e : Exception) :
  ReservationService.get_reservation_by_id rid user db = (Raised e, db) ->
  bind (ReservationService.get_reservation_by_id rid user) k db = (Raised e, db).
Proof. intros H. unfold bind. now rewrite H. Qed.

(** X7: completion.  Called by a party of a reservation whose passenger
    row exists, [mark_reservation_as_completed] succeeds exactly when the
    status is STARTED: the reservation becomes COMPLETED with
    [actual_dropoff_time] stamped and the passenger's [trips_as_passenger]
    grows by one, nothing else changes; for any other status it raises the
    400 error and changes nothing. *)
Theorem reservation_completion (db : DB) (rid : Z) (user : User.t) (now : Z)
    (r : Reservation.t) (p : User.t) :
  reservations db !! rid = Some r -> is_party user r db ->
  users db !! Reservation.passenger_id r = Some p ->
  let complete := ReservationService.mark_reservation_as_completed rid user now in
  (succeeds complete db <-> Reservation.status r = STARTED) /\
  (Reservation.status r = STARTED ->
   complete db
   = (Ok (completed now r),
      mkDB (<[Reservation.passenger_id r :=
                User.set_trips_as_passenger (User.trips_as_passenger p + 1) p]> (users db))
           (trips db) (<[rid := completed now r]> (reservations db))
           (trip_seq db) (reservation_seq db)) /\
   Reservation.status (completed now r) = COMPLETED /\
   Reservation.actual_dropoff_time (completed now r) = Some now) /\
  (Reservation.status r <> STARTED ->
   complete db = (Raised (HTTPException HTTP_400_BAD_REQUEST), db)).
Proof.
  intros Hr Hp Hu complete.
  assert (Hok := mark_reservation_as_completed_run rid user now db r p Hr Hp).
  assert (Hko := mark_reservation_as_completed_not_started rid user now db r Hr Hp).
  split; [|split; [|exact Hko]].
  - unfold succeeds, outcome, complete. split.
    + intros [a Ha]. destruct (decide (Reservation.status r = STARTED)) as [|Hn];
        [assumption|]. rewrite (Hko Hn) in Ha. discriminate.
    + intros Hs. rewrite (Hok Hs Hu). eauto.
  - intros Hs. split; [exact (Hok Hs Hu) | split; reflexivity].
Qed.

Lemma reservation_completion_witness :
  let db := db_with 0 TripStatus.FULL 2 STARTED in
  exists r' db',
    ReservationService.mark_reservation_as_completed 1 rated_driver 90 db = (Ok r', db') /\
    Reservation.status r' = COMPLETED /\
    User.trips_as_passenger <$> users db' !! 2 = Some 1.
Proof.
  destruct (reservation_completion (db_with 0 TripStatus.FULL 2 STARTED) 1 rated_driver 90
              (reservation_1 2 STARTED) passenger_2 eq_refl
              (or_intror (ex_intro _ (Trip.mk 1 1 1000 4 0 1000%float TripStatus.FULL)
                            (conj eq_refl eq_refl))) eq_refl)
    as (_ & Hok & _).
  destruct (Hok eq_refl) as (Hrun & Hst & _).
  eexists _, _. split; [exact Hrun|]. split; [exact Hst | reflexivity].
Defined.

(** X8: rating.  Called by a party of a reservation whose trip and rated
    user exist, the rated user's [total_ratings] being a counter (not
    negative, and not at the top of its column), [rate_trip] succeeds exactly
    when the status is COMPLETED, for every rating that the Integer column
    holds: the service itself does not check 1..5.  A passenger's call stores the rating as [driver_rating] with the comment
    as [passenger_comment] and updates the average of the trip's driver; a
    call by the driver stores [passenger_rating] and [driver_comment] and
    updates the passenger's average.  Before COMPLETED it raises the 400
    error and changes nothing. *)
Theorem rating_guard_and_direction (db : DB) (rid : Z) (user : User.t) (rating : Z)
    (comment : option string) (r : Reservation.t) (t : Trip.t) (u : User.t) :
  reservations db !! rid = Some r -> trips db !! Reservation.trip_id r = Some t ->
  Reservation.passenger_id r = User.id user \/ Trip.driver_id t = User.id user ->
  users db !! rating_target user r t = Some u ->
  integer_column rating ->
  0 <= User.total_ratings u -> integer_column (User.total_ratings u + 1) ->
  let rate := ReservationService.rate_trip rid user rating comment in
  let r' := rated user rating comment r in
  (succeeds rate db <-> Reservation.status r = COMPLETED) /\
  (Reservation.status r = COMPLETED ->
   rate db
   = (Ok r', mkDB (<[rating_target user r t := with_rating rating u]> (users db)) (trips db)
                  (<[rid := r']> (reservations db)) (trip_seq db) (reservation_seq db))) /\
  (Reservation.status r <> COMPLETED ->
   rate db = (Raised (HTTPException HTTP_400_BAD_REQUEST), db)) /\
  (Reservation.passenger_id r = User.id user ->
   rating_target user r t = Trip.driver_id t /\
   Reservation.driver_rating r' = Some rating /\
   Reservation.passenger_comment r' = comment /\
   Reservation.passenger_rating r' = Reservation.passenger_rating r) /\
  (Reservation.passenger_id r <> User.id user ->
   rating_target user r t = Reservation.passenger_id r /\
   Reservation.passenger_rating r' = Some rating /\
   Reservation.driver_comment r' = comment /\
   Reservation.driver_rating r' = Reservation.driver_rating r).
Proof.
  intros Hr Ht Hp Hu Hfit Hcount Hnext rate r'.
  assert (Hz : User.total_ratings u + 1 <> 0) by lia.
  assert (Hparty : is_party user r db) by (destruct Hp; [left | right]; eauto).
  assert (Hok := fun Hs => rate_trip_run db rid user rating comment r t u Hr Ht Hp Hs Hu Hz).
  assert (Hko := rate_trip_not_completed rid user rating comment db r Hr Hparty).
  split; [|split; [exact Hok | split; [exact Hko|]]].
  - unfold succeeds, outcome, rate. split.
    + intros [a Ha]. destruct (decide (Reservation.status r = COMPLETED)) as [|Hn];
        [assumption|]. rewrite (Hko Hn) in Ha. discriminate.
    + intros Hs. rewrite (Hok Hs). eauto.
  - unfold r', rated, rating_target.
    split; intros Hpass; case_decide; try contradiction; repeat split.
Qed.

Lemma rating_guard_and_direction_witness :
  let db := db_with 0 TripStatus.FULL 2 COMPLETED in
  exists r' db',
    ReservationService.rate_trip 1 rated_driver 6 None db = (Ok r', db') /\
    Reservation.passenger_rating r' = Some 6 /\
    User.total_ratings <$> users db' !! 2 = Some 1.
Proof.
  destruct (rating_guard_and_direction (db_with 0 TripStatus.FULL 2 COMPLETED) 1
              rated_driver 6 None (reservation_1 2 COMPLETED)
              (Trip.mk 1 1 1000 4 0 1000%float TripStatus.FULL) passenger_2
              eq_refl eq_refl (or_intror eq_refl) eq_refl
              ltac:(unfold integer_column; lia) ltac:(simpl; lia)
              ltac:(unfold integer_column; simpl; lia))
    as (_ & Hok & _ & _ & Hdrv).
  eexists _, _. split; [exact (Hok eq_refl)|].
  split; [apply Hdrv; simpl; lia | reflexivity].
Defined.

End Transitions.

(** ** What every call of a reservation service preserves *)

Section Calls.
Import ReservationStatus.

Ltac booking_fields :=
  unfold same_booking, confirmed, refused, cancelled, started, completed, rated;
  repeat case_decide; simpl; repeat split.

Lemma same_booking_confirmed message now r : same_booking r (confirmed message now r).
Proof. booking_fields. Qed.

Lemma same_booking_refused message now r : same_booking r (refused message now r).
Proof. booking_fields. Qed.

Lemma same_booking_cancelled user reason now r : same_booking r (cancelled user reason now r).
Proof. booking_fields. Qed.

Lemma same_booking_started now r : same_booking r (started now r).
Proof. booking_fields. Qed.

Lemma same_booking_completed now r : same_booking r (completed now r).
Proof. booking_fields. Qed.

Lemma same_booking_rated user rating comment r : same_booking r (rated user rating comment r).
Proof. booking_fields. Qed.

Lemma refused_status message now r :
  Reservation.status (refused message now r) = CANCELLED_BY_DRIVER.
Proof. apply refused_fields. Qed.

Lemma cancelled_status user reason now r :
  Reservation.status (cancelled user reason now r) ∈ [CANCELLED_BY_PASSENGER; CANCELLED_BY_DRIVER].
Proof. unfold cancelled. simpl. rewrite elem_of_2. case_decide; auto. Qed.

(** The effect of a call on the reservations, once the request is over. *)
Lemma call_effect (c : Call) (now : Z) (db : DB) :
  persisted (run_call c now) db = db \/
  exists r r',
    reservations db !! call_target c = Some r /\
    reservations (persisted (run_call c now) db)
    = <[call_target c := r']> (reservations db) /\
    same_booking r r' /\
    lifecycle_step (Reservation.status r) (Reservation.status r').
Proof.
  unfold persisted.
  destruct (run_call c now db) as [[x|e] db'] eqn:Hrun; [|now left].
  right. destruct c as [rid u accept message | rid u reason | rid u | rid u
                        | rid u rating comment]; simpl in *.
  - pose proof (confirm_reservation_cases rid u accept message now db) as Hc.
    rewrite Hrun in Hc. inversion Hc; subst.
    + exists r, (confirmed message now r). split; [assumption|]. split; [reflexivity|].
      split; [apply same_booking_confirmed|].
      destruct (confirmed_fields message now r) as (-> & _).
      match goal with H : confirm_guards _ _ _ |- _ => destruct H as (_ & -> & _) end.
      right. rewrite !elem_of_cons. auto.
    + exists r, (refused message now r). split; [assumption|]. split; [reflexivity|].
      split; [apply same_booking_refused|].
      rewrite refused_status.
      match goal with H : Reservation.status r = PENDING |- _ => rewrite H end.
      right. rewrite !elem_of_cons. auto.
  - destruct (cancel_reservation_ok_inv _ _ _ _ _ _ _ Hrun) as (r & Hr & _ & Hc & -> & ->).
    exists r, (cancelled u reason now r). split; [assumption|]. split; [reflexivity|].
    split; [apply same_booking_cancelled|].
    pose proof (cancelled_status u reason now r) as Hst. rewrite elem_of_2 in Hst.
    unfold Reservation.can_be_cancelled in Hc. rewrite !elem_of_cons in Hc.
    right. destruct Hc as [->|[->|[->|Hc]]]; [..|now apply elem_of_nil in Hc];
      rewrite !elem_of_cons; tauto.
  - destruct (mark_reservation_as_started_ok_inv _ _ _ _ _ _ Hrun)
      as (r & Hr & _ & Hs & -> & ->).
    exists r, (started now r). split; [assumption|]. split; [reflexivity|].
    split; [apply same_booking_started|].
    right. rewrite Hs. simpl. rewrite !elem_of_cons. auto.
  - destruct (mark_reservation_as_completed_ok_inv _ _ _ _ _ _ Hrun)
      as (r & p & Hr & _ & Hs & _ & -> & ->).
    exists r, (completed now r). split; [assumption|]. split; [reflexivity|].
    split; [apply same_booking_completed|].
    right. rewrite Hs. reflexivity.
  - destruct (rate_trip_ok_inv _ _ _ _ _ _ _ Hrun)
      as (r & t & p & Hr & _ & _ & Hs & _ & _ & -> & ->).
    exists r, (rated u rating comment r). split; [assumption|]. split; [reflexivity|].
    split; [apply same_booking_rated|].
    left. apply rated_fields.
Qed.

Lemma same_booking_refl r : same_booking r r.
Proof. unfold same_booking. repeat split. Qed.

Lemma lifecycle_step_active s s' :
  lifecycle_step s s' -> s' ∈ [PENDING; CONFIRMED; PAID; STARTED] ->
  s ∈ [PENDING; CONFIRMED; PAID; STARTED].
Proof.
  intros [->|Hstep] Hact; [assumption|].
  destruct s; simpl in Hstep; try contradiction; rewrite !elem_of_cons; auto.
Qed.

(** X4: a call of a reservation service (confirm or refuse, cancel, start,
    complete, rate) creates and deletes no reservation, leaves every
    reservation other than its target exactly as it was, and never changes
    the booking data of its target: id, trip, passenger, number of seats,
    total price, price per seat, platform fee and payment status. *)
Theorem reservation_calls_keep_bookings (c : Call) (now : Z) (db : DB) (k : Z) :
  let db' := persisted (run_call c now) db in
  (reservations db !! k = None -> reservations db' !! k = None) /\
  (forall r, reservations db !! k = Some r ->
     exists r', reservations db' !! k = Some r' /\ same_booking r r' /\
                (k <> call_target c -> r' = r)).
Proof.
  intros db'. unfold db'.
  destruct (call_effect c now db) as [-> | (r0 & r0' & Hr0 & -> & Hsame & _)].
  - split; [tauto|]. intros r Hr. exists r. auto using same_booking_refl.
  - destruct (decide (k = call_target c)) as [->|Hne].
    + split; [congruence|]. intros r Hr. same_rows.
      exists r0'. rewrite lookup_insert_eq. split; [reflexivity|]. split; [assumption|].
      congruence.
    + rewrite lookup_insert_ne by congruence. split; [tauto|].
      intros r Hr. exists r. auto using same_booking_refl.
Qed.

(** X5: the status of a reservation only moves along
    PENDING -> CONFIRMED -> STARTED -> COMPLETED, or from PENDING, CONFIRMED
    or PAID to one of the two cancelled statuses.  So a COMPLETED, cancelled
    or NO_SHOW reservation keeps its status for ever, and no service call
    ever puts a reservation into PENDING, PAID or NO_SHOW. *)
Theorem reservation_status_transitions (c : Call) (now : Z) (db : DB) (k : Z)
    (r r' : Reservation.t) :
  reservations db !! k = Some r ->
  reservations (persisted (run_call c now) db) !! k = Some r' ->
  lifecycle_step (Reservation.status r) (Reservation.status r') /\
  (Reservation.status r ∈ [COMPLETED; CANCELLED_BY_PASSENGER; CANCELLED_BY_DRIVER; NO_SHOW] ->
   Reservation.status r' = Reservation.status r) /\
  (Reservation.status r' ∈ [PENDING; PAID; NO_SHOW] ->
   Reservation.status r' = Reservation.status r).
Proof.
  intros Hr Hr'.
  assert (Hstep : lifecycle_step (Reservation.status r) (Reservation.status r')).
  { destruct (call_effect c now db) as [Heq | (r0 & r0' & Hr0 & Heq & _ & Hstep)];
      rewrite Heq in Hr'.
    - same_rows. now left.
    - destruct (decide (k = call_target c)) as [->|Hne].
      + rewrite lookup_insert_eq in Hr'. same_rows. congruence.
      + rewrite lookup_insert_ne in Hr' by congruence. same_rows. now left. }
  split; [assumption|]. unfold lifecycle_step in Hstep.
  split; intros Hin; rewrite !elem_of_cons in Hin;
    destruct Hstep as [|Hstep]; try assumption;
    destruct (Reservation.status r); simpl in Hstep; try contradiction;
    rewrite ?elem_of_cons in Hstep;
    repeat match goal with
           | H : _ \/ _ |- _ => destruct H
           | H : _ ∈ [] |- _ => apply elem_of_nil in H; contradiction
           end; congruence.
Qed.

Lemma reservation_status_transitions_witness :
  let db := db_with 2 TripStatus.ACTIVE 2 CONFIRMED in
  exists r', reservations (persisted (run_call (Start 1 passenger_2) 50) db) !! 1 = Some r' /\
             Reservation.status r' = STARTED /\
             lifecycle_step CONFIRMED (Reservation.status r').
Proof.
  exists (started 50 (reservation_1 2 CONFIRMED)).
  assert (Hafter : reservations (persisted (run_call (Start 1 passenger_2) 50)
                                   (db_with 2 TripStatus.ACTIVE 2 CONFIRMED)) !! 1
                   = Some (started 50 (reservation_1 2 CONFIRMED))) by reflexivity.
  split; [exact Hafter|]. split; [reflexivity|].
  exact (proj1 (reservation_status_transitions (Start 1 passenger_2) 50
                  (db_with 2 TripStatus.ACTIVE 2 CONFIRMED) 1
                  (reservation_1 2 CONFIRMED) _ eq_refl Hafter)).
Defined.

Lemma existing_reservation_None (tid pid : Z) (db : DB) (k : Z) (r : Reservation.t) :
  ReservationService.existing_reservation tid pid db = None ->
  reservations db !! k = Some r ->
  Reservation.trip_id r = tid -> Reservation.passenger_id r = pid ->
  ~ Reservation.is_active r.
Proof.
  unfold ReservationService.existing_reservation. intros Hnone Hr Ht Hp Hact.
  set (P := fun kr : Z * Reservation.t =>
              Reservation.trip_id kr.2 = tid /\ Reservation.passenger_id kr.2 = pid /\
              Reservation.status kr.2 ∈ [PENDING; CONFIRMED; PAID; STARTED]) in *.
  assert (Hin : filter P (reservations db) !! k = Some r)
    by (apply map_lookup_filter_Some; split; [assumption | now repeat split]).
  destruct (map_to_list (filter P (reservations db))) as [|kr l] eqn:Hl.
  - apply map_to_list_empty_iff in Hl. rewrite Hl in Hin. now rewrite lookup_empty in Hin.
  - discriminate Hnone.
Qed.

(** X6: "at most one active reservation for each trip and passenger" is an
    invariant of the reservation services: [create_reservation] and every
    call on an existing reservation preserve it. *)
Theorem active_reservation_unique (db : DB) :
  active_unique db ->
  (forall rd passenger tid now,
     active_unique (persisted (ReservationService.create_reservation rd passenger tid now) db)) /\
  (forall c now, active_unique (persisted (run_call c now) db)).
Proof.
  intros Huniq. split.
  - intros rd passenger tid now. unfold persisted.
    destruct (create_reservation_cases rd passenger tid now db)
      as [(e & -> & _) | (t & Ht & Hg & ->)]; [assumption|].
    destruct Hg as (_ & _ & _ & _ & Hnone).
    intros k1 k2 r1 r2 H1 H2 Ha1 Ha2 Htid Hpid. simpl in H1, H2.
    destruct (decide (k1 = reservation_seq db)) as [->|Hn1];
      destruct (decide (k2 = reservation_seq db)) as [->|Hn2]; [reflexivity|..].
    + exfalso. rewrite lookup_insert_eq in H1. injection H1 as <-.
      rewrite lookup_insert_ne in H2 by congruence. simpl in Htid, Hpid.
      now apply (existing_reservation_None _ _ _ _ _ Hnone H2).
    + exfalso. rewrite lookup_insert_eq in H2. injection H2 as <-.
      rewrite lookup_insert_ne in H1 by congruence. simpl in Htid, Hpid.
      now apply (existing_reservation_None _ _ _ _ _ Hnone H1).
    + rewrite lookup_insert_ne in H1, H2 by congruence. eauto.
  - intros c now.
    destruct (call_effect c now db) as [-> | (r & r' & Hr & Heq & Hsame & Hstep)];
      [assumption|].
    assert (Hback : forall k x', <[call_target c := r']> (reservations db) !! k = Some x' ->
              Reservation.is_active x' ->
              exists x, reservations db !! k = Some x /\ Reservation.is_active x /\
                        Reservation.trip_id x = Reservation.trip_id x' /\
                        Reservation.passenger_id x = Reservation.passenger_id x').
    { intros k x' Hx' Hact. destruct (decide (k = call_target c)) as [->|Hne].
      - rewrite lookup_insert_eq in Hx'. injection Hx' as <-. exists r.
        destruct Hsame as (_ & Ht & Hp & _). split; [assumption|].
        split; [|split; congruence].
        unfold Reservation.is_active in *. eapply lifecycle_step_active; eassumption.
      - rewrite lookup_insert_ne in Hx' by congruence. eauto. }
    intros k1 k2 r1 r2 H1 H2 Ha1 Ha2 Htid Hpid. rewrite Heq in H1, H2.
    destruct (Hback _ _ H1 Ha1) as (x1 & Hx1 & Hax1 & Ht1 & Hp1).
    destruct (Hback _ _ H2 Ha2) as (x2 & Hx2 & Hax2 & Ht2 & Hp2).
    apply (Huniq k1 k2 x1 x2); congruence.
Qed.

Lemma active_reservation_unique_witness :
  active_unique (db_trip_only 4) /\
  active_unique (persisted (ReservationService.create_reservation
                              (ReservationService.mkReservationData (Some 2))
                              passenger_2 1 10) (db_trip_only 4)).
Proof.
  assert (H0 : active_unique (db_trip_only 4)).
  { intros k1 k2 r1 r2 H1. simpl in H1. now rewrite lookup_empty in H1. }
  split; [exact H0|].
  apply (proj1 (active_reservation_unique (db_trip_only 4) H0)).
Defined.

(** X9: what a call does to the other tables.  Only an accepted
    confirmation changes a trip, and then only the trip of the reservation,
    whose counter it leaves non-negative; a refusal, a cancellation, a start,
    a completion and a rating leave every trip as it was.  Only a completion
    and a rating change a user. *)
Theorem reservation_calls_other_tables (c : Call) (now : Z) (db : DB) :
  let db' := persisted (run_call c now) db in
  match c with
  | Confirm rid _ true message =>
      trips db' = trips db \/
      exists r t, reservations db !! rid = Some r /\
                  trips db !! Reservation.trip_id r = Some t /\
                  trips db' = <[Reservation.trip_id r := seats_taken r t]> (trips db) /\
                  0 <= Trip.available_seats (seats_taken r t)
  | _ => trips db' = trips db
  end /\
  match c with
  | Complete _ _ | Rate _ _ _ _ => True
  | _ => users db' = users db
  end.
Proof.
  intros db'. unfold db', persisted.
  destruct (run_call c now db) as [[x|e] db1] eqn:Hrun.
  2:{ destruct c as [? ? [|] ?| | | |]; simpl; auto. }
  destruct c as [rid u accept message | rid u reason | rid u | rid u
                 | rid u rating comment]; simpl in *.
  - pose proof (confirm_reservation_cases rid u accept message now db) as Hc.
    rewrite Hrun in Hc. inversion Hc; subst; simpl.
    + split; [|reflexivity]. right.
      match goal with
      | Hg : confirm_guards _ ?r0 ?t0 |- _ =>
          exists r0, t0; destruct Hg as (_ & _ & Hge);
          destruct (seats_taken_fields r0 t0) as (Hav & _)
      end.
      repeat split; try assumption. rewrite Hav. lia.
    + split; reflexivity.
  - destruct (cancel_reservation_ok_inv _ _ _ _ _ _ _ Hrun) as (r & _ & _ & _ & _ & ->).
    split; reflexivity.
  - destruct (mark_reservation_as_started_ok_inv _ _ _ _ _ _ Hrun)
      as (r & _ & _ & _ & _ & ->).
    split; reflexivity.
  - destruct (mark_reservation_as_completed_ok_inv _ _ _ _ _ _ Hrun)
      as (r & p & _ & _ & _ & _ & _ & ->).
    split; [reflexivity | exact I].
  - destruct (rate_trip_ok_inv _ _ _ _ _ _ _ Hrun)
      as (r & t & p & _ & _ & _ & _ & _ & _ & _ & ->).
    split; [reflexivity | exact I].
Qed.

End Calls.

(** ** Seats and requests *)

Section Seats.
Import ReservationStatus.

(** A call either leaves the trips alone or replaces the trip of an accepted
    reservation by the same trip with the seats taken. *)
Lemma call_effect_on_trips (c : Call) (now : Z) (db : DB) :
  trips (persisted (run_call c now) db) = trips db \/
  exists r t, trips (persisted (run_call c now) db)
              = <[Reservation.trip_id r := seats_taken r t]> (trips db) /\
              0 <= Trip.available_seats (seats_taken r t).
Proof.
  unfold persisted.
  destruct (run_call c now db) as [[x|e] db1] eqn:Hrun; [|now left].
  destruct c as [rid u accept message | rid u reason | rid u | rid u
                 | rid u rating comment]; simpl in *.
  - pose proof (confirm_reservation_cases rid u accept message now db) as Hc.
    rewrite Hrun in Hc. inversion Hc; subst; simpl; [|now left].
    right.
    match goal with
    | Hg : confirm_guards _ ?r0 ?t0 |- _ =>
        exists r0, t0; destruct Hg as (_ & _ & Hge);
        destruct (seats_taken_fields r0 t0) as (Hav & _)
    end.
    split; [reflexivity | rewrite Hav; lia].
  - destruct (cancel_reservation_ok_inv _ _ _ _ _ _ _ Hrun) as (r & _ & _ & _ & _ & ->).
    now left.
  - destruct (mark_reservation_as_started_ok_inv _ _ _ _ _ _ Hrun)
      as (r & _ & _ & _ & _ & ->).
    now left.
  - destruct (mark_reservation_as_completed_ok_inv _ _ _ _ _ _ Hrun)
      as (r & p & _ & _ & _ & _ & _ & ->).
    now left.
  - destruct (rate_trip_ok_inv _ _ _ _ _ _ _ Hrun)
      as (r & t & p & _ & _ & _ & _ & _ & _ & _ & ->).
    now left.
Qed.

(** X10: no oversell in sequence.  If no trip has a negative counter, then
    after any sequence of reservation service calls, each finished before the
    next starts, still none has. *)
Theorem seats_never_negative (calls : list (Call * Z)) (db : DB) :
  seats_nonneg db -> seats_nonneg (run_calls calls db).
Proof.
  revert db. induction calls as [|[c now] rest IH]; intros db Hdb; simpl; [assumption|].
  apply IH. intros k t Hk.
  pose proof (call_effect_on_trips c now db) as Hcases.
  destruct Hcases as [Heq | (r & t0 & Heq & Hpos)]; rewrite Heq in Hk.
  - eauto.
  - destruct (decide (k = Reservation.trip_id r)) as [->|Hne].
    + rewrite lookup_insert_eq in Hk. now injection Hk as <-.
    + rewrite lookup_insert_ne in Hk by congruence. eauto.
Qed.

Lemma seats_never_negative_witness :
  seats_nonneg db_two_requests /\
  seats_nonneg (run_calls [(Confirm 1 rated_driver true None, 20);
                           (Confirm 2 rated_driver true None, 21)] db_two_requests).
Proof.
  assert (H0 : seats_nonneg db_two_requests).
  { intros k t Hk. simpl in Hk. apply lookup_insert_Some in Hk.
    destruct Hk as [[_ <-] | [_ Hk]]; [simpl; lia | now rewrite lookup_empty in Hk]. }
  split; [exact H0 | exact (seats_never_negative _ _ H0)].
Defined.

Lemma confirm_reservation_no_seats (db : DB) (rid : Z) (conductor : User.t)
    (message : option string) (now : Z) (r : Reservation.t) (t : Trip.t) :
  reservations db !! rid = Some r -> trips db !! Reservation.trip_id r = Some t ->
  Trip.driver_id t = User.id conductor -> Reservation.status r = PENDING ->
  Trip.available_seats t < Reservation.number_of_seats r ->
  ReservationService.confirm_reservation rid conductor true message now db
  = (Raised (HTTPException HTTP_400_BAD_REQUEST), db).
Proof.
  intros Hr Ht Hd Hs Hlt.
  destruct (confirm_reservation_cases rid conductor true message now db);
    same_rows; try reflexivity; try contradiction; try discriminate.
  unfold confirm_guards in *. exfalso. lia.
Qed.

(** X11: two pending requests on one trip that do not fit together, the
    first one fitting: accepted one after the other, the first succeeds and
    takes its seats, the second is refused with the 400 error and changes
    nothing. *)
Theorem second_confirmation_refused (db : DB) (rid1 rid2 : Z) (conductor : User.t)
    (m1 m2 : option string) (now1 now2 : Z) (r1 r2 : Reservation.t) (t : Trip.t) :
  rid1 <> rid2 ->
  reservations db !! rid1 = Some r1 -> reservations db !! rid2 = Some r2 ->
  Reservation.trip_id r2 = Reservation.trip_id r1 ->
  trips db !! Reservation.trip_id r1 = Some t ->
  Trip.driver_id t = User.id conductor ->
  Reservation.status r1 = PENDING -> Reservation.status r2 = PENDING ->
  Reservation.number_of_seats r1 <= Trip.available_seats t ->
  Trip.available_seats t < Reservation.number_of_seats r1 + Reservation.number_of_seats r2 ->
  let db1 := state_after (ReservationService.confirm_reservation rid1 conductor true m1 now1) db in
  succeeds (ReservationService.confirm_reservation rid1 conductor true m1 now1) db /\
  ReservationService.confirm_reservation rid2 conductor true m2 now2 db1
  = (Raised (HTTPException HTTP_400_BAD_REQUEST), db1) /\
  (exists t1, trips db1 !! Reservation.trip_id r1 = Some t1 /\
              Trip.available_seats t1
              = Trip.available_seats t - Reservation.number_of_seats r1 /\
              0 <= Trip.available_seats t1).
Proof.
  intros Hne Hr1 Hr2 Htid Ht Hd Hs1 Hs2 Hfit Hover db1.
  assert (Hdrv : Trip.driver_id (seats_taken r1 t) = User.id conductor)
    by (unfold seats_taken; simpl; case_decide; assumption).
  assert (Hg : confirm_guards conductor r1 t)
    by (unfold confirm_guards; repeat split; [assumption.. | lia]).
  assert (Hrun := confirm_reservation_accepted db rid1 conductor m1 now1 r1 t Hr1 Ht Hg).
  assert (Hdb1 : db1 = mkDB (users db)
                            (<[Reservation.trip_id r1 := seats_taken r1 t]> (trips db))
                            (<[rid1 := confirmed m1 now1 r1]> (reservations db))
                            (trip_seq db) (reservation_seq db))
    by (unfold db1, state_after; now rewrite Hrun).
  destruct (seats_taken_fields r1 t) as (Hav & _ & Hst).
  split; [unfold succeeds, outcome; rewrite Hrun; eauto|].
  split.
  - apply (confirm_reservation_no_seats db1 rid2 conductor m2 now2 r2 (seats_taken r1 t)).
    + rewrite Hdb1. simpl. now rewrite lookup_insert_ne by congruence.
    + rewrite Hdb1, Htid. simpl. apply lookup_insert_eq.
    + exact Hdrv.
    + exact Hs2.
    + rewrite Hav. lia.
  - exists (seats_taken r1 t). rewrite Hdb1. simpl. rewrite lookup_insert_eq.
    split; [reflexivity|]. split; [assumption | rewrite Hav; lia].
Qed.

Lemma second_confirmation_refused_witness :
  let db1 := state_after (ReservationService.confirm_reservation 1 rated_driver true None 20)
               db_two_requests in
  ReservationService.confirm_reservation 2 rated_driver true None 21 db1
  = (Raised (HTTPException HTTP_400_BAD_REQUEST), db1) /\
  (exists t1, trips db1 !! 1 = Some t1 /\ Trip.available_seats t1 = 1).
Proof.
  destruct (second_confirmation_refused db_two_requests 1 2 rated_driver None None 20 21
              (reservation_1 3 PENDING)
              (Reservation.mk 2 1 3 2 None None PENDING 2000%float 1000%float 100%float
                 PaymentStatus.PENDING None None None None None None None None)
              (Trip.mk 1 1 1000 4 4 1000%float TripStatus.ACTIVE))
    as (_ & H400 & t1 & Ht1 & Hav & _);
    try reflexivity; try (simpl; lia).
  split; [exact H400|]. exists t1. split; [exact Ht1 | exact Hav].
Defined.

End Seats.

(** ** Requests for a reservation *)

Section Requests.
Import ReservationStatus.

Lemma existing_reservation_Some (tid pid : Z) (db : DB) (k : Z) (r : Reservation.t) :
  reservations db !! k = Some r ->
  Reservation.trip_id r = tid -> Reservation.passenger_id r = pid ->
  Reservation.is_active r ->
  is_Some (ReservationService.existing_reservation tid pid db).
Proof.
  intros Hr Ht Hp Hact.
  destruct (ReservationService.existing_reservation tid pid db) eqn:He; [eauto|].
  exfalso. exact (existing_reservation_None tid pid db k r He Hr Ht Hp Hact).
Qed.

(** Past the lookup of the trip and the two identity guards, every refusal
    of [create_reservation] is a 400. *)
Lemma create_reservation_error_code (rd : ReservationService.ReservationData)
    (passenger : User.t) (tid now : Z) (db db' : DB) (t : Trip.t) (e : Exception) :
  trips db !! tid = Some t ->
  User.is_phone_verified passenger = true ->
  Trip.driver_id t <> User.id passenger ->
  ReservationService.create_reservation rd passenger tid now db = (Raised e, db') ->
  e = HTTPException HTTP_400_BAD_REQUEST.
Proof.
  intros Ht Hv Hd. unfold ReservationService.create_reservation,
    TripService.get_trip_by_id, add_reservation.
  unfold bind, get, ret, raise, raise_if. simpl. rewrite Ht. simpl.
  repeat (case_decide; simpl); intros Hrun;
    first [contradiction | congruence | (injection Hrun as <- _; reflexivity)].
Qed.

(** X12: no second request.  Once [create_reservation] has succeeded for a
    passenger on a trip, every further request of that passenger for that
    trip, for any number of seats and at any time, is refused with the 400
    error and changes nothing. *)
Theorem duplicate_request_refused (rd rd' : ReservationService.ReservationData)
    (passenger : User.t) (tid now now' : Z) (db db1 : DB) (r : Reservation.t) :
  ReservationService.create_reservation rd passenger tid now db = (Ok r, db1) ->
  ReservationService.create_reservation rd' passenger tid now' db1
  = (Raised (HTTPException HTTP_400_BAD_REQUEST), db1).
Proof.
  intros Hrun.
  destruct (create_reservation_cases rd passenger tid now db)
    as [(e & He & _) | (t & Ht & Hg & Hok)]; [congruence|].
  rewrite Hok in Hrun. injection Hrun as <- <-.
  destruct Hg as (Hv & Hd & _).
  set (db1 := mkDB _ _ _ _ _).
  assert (Ht1 : trips db1 !! tid = Some t) by exact Ht.
  destruct (create_reservation_cases rd' passenger tid now' db1)
    as [(e & He & _) | (t' & Ht' & Hg' & _)].
  - rewrite He. f_equal. f_equal.
    exact (create_reservation_error_code rd' passenger tid now' db1 db1 t e Ht1 Hv Hd He).
  - exfalso. destruct Hg' as (_ & _ & _ & _ & Hnone).
    assert (Hsome : is_Some (ReservationService.existing_reservation tid
                               (User.id passenger) db1)).
    { apply (existing_reservation_Some _ _ db1 (reservation_seq db)
               (requested passenger tid t
                  (default 1 (ReservationService.rd_number_of_seats rd))
                  (reservation_seq db))).
      - apply lookup_insert_eq.
      - reflexivity.
      - reflexivity.
      - unfold Reservation.is_active. simpl. rewrite !elem_of_cons. auto. }
    rewrite Hnone in Hsome. now apply is_Some_None in Hsome.
Qed.

Lemma duplicate_request_refused_witness :
  exists r db1,
    ReservationService.create_reservation
      (ReservationService.mkReservationData (Some 2)) passenger_2 1 10 (db_trip_only 4)
    = (Ok r, db1) /\
    ReservationService.create_reservation
      (ReservationService.mkReservationData (Some 1)) passenger_2 1 11 db1
    = (Raised (HTTPException HTTP_400_BAD_REQUEST), db1).
Proof.
  pose (t := Trip.mk 1 1 1000 4 4 1000%float TripStatus.ACTIVE).
  pose (r := requested passenger_2 1 t 2 1).
  pose (db1 := mkDB (users (db_trip_only 4)) (trips (db_trip_only 4))
                    (<[1 := r]> (reservations (db_trip_only 4))) 2 2).
  assert (Hrun : ReservationService.create_reservation
                   (ReservationService.mkReservationData (Some 2)) passenger_2 1 10
                   (db_trip_only 4) = (Ok r, db1)) by (vm_compute; reflexivity).
  exists r, db1. split; [exact Hrun|].
  exact (duplicate_request_refused _ (ReservationService.mkReservationData (Some 1))
           passenger_2 1 10 11 (db_trip_only 4) db1 r Hrun).
Defined.

(** X13: [create_reservation] does not call [can_book_trip].  Of the
    columns that [can_book_trip] tests it reads the phone verification only:
    giving the account another user type, another status and another
    activation flag never changes its answer, not even when the account then
    fails [can_book_trip]. *)
Theorem create_reservation_ignores_account (rd : ReservationService.ReservationData)
    (p : User.t) (tid now : Z) (db : DB)
    (type : UserType.t) (standing : UserStatus.t) (active : bool) :
  let p' := User.mk (User.id p) active (User.is_phone_verified p) type standing
              (User.driver_license_verified p) (User.rating_average p)
              (User.total_ratings p) (User.trips_as_driver p)
              (User.trips_as_passenger p) in
  ReservationService.create_reservation rd p' tid now db
  = ReservationService.create_reservation rd p tid now db /\
  (User.can_book_trip p' <->
   type ∈ [UserType.PASSAGER; UserType.BOTH] /\ User.is_phone_verified p = true /\
   standing ∈ [UserStatus.VERIFIED; UserStatus.PENDING] /\ active = true).
Proof.
  intros p'. split.
  - unfold ReservationService.create_reservation, bind.
    destruct (TripService.get_trip_by_id tid db) as [[trip|e] db0]; reflexivity.
  - unfold User.can_book_trip, User.is_passenger. subst p'. simpl. reflexivity.
Qed.

(** A suspended, deactivated, driver-only account cannot book by
    [can_book_trip], and its request is answered like that of the verified
    passenger with the same id: it is accepted. *)
Lemma create_reservation_ignores_account_witness :
  ~ User.can_book_trip suspended_driver_3 /\
  succeeds (ReservationService.create_reservation
              (ReservationService.mkReservationData (Some 1)) suspended_driver_3 1 10)
           (db_trip_only 4).
Proof.
  destruct (create_reservation_ignores_account
              (ReservationService.mkReservationData (Some 1))
              (User.mk 3 true true UserType.PASSAGER UserStatus.VERIFIED false 0%float 0 0 0)
              1 10 (db_trip_only 4) UserType.CONDUCTEUR UserStatus.SUSPENDED false)
    as [Hsame Hbook].
  split.
  - intros H. apply Hbook in H. destruct H as (_ & _ & _ & H). discriminate H.
  - unfold succeeds, outcome. change suspended_driver_3 with
      (User.mk 3 false true UserType.CONDUCTEUR UserStatus.SUSPENDED false 0%float 0 0 0).
    simpl in Hsame. rewrite Hsame. eexists. vm_compute. reflexivity.
Defined.

End Requests.

(** ** Errors of cancellation and start *)

Section CancelStartErrors.
Import ReservationStatus.

Lemma access_granted_or_refused (rid : Z) (user : User.t) (db : DB) :
  (exists r, reservations db !! rid = Some r /\ is_party user r db) \/
  (exists e, ReservationService.get_reservation_by_id rid user db = (Raised e, db)).
Proof.
  destruct (get_reservation_by_id_cases rid user db); [left | right..]; eauto.
Qed.

Lemma cancel_reservation_all_or_nothing (rid : Z) (user : User.t) (reason : string)
    (now : Z) (db : DB) :
  succeeds (ReservationService.cancel_reservation rid user reason now) db \/
  exists e, ReservationService.cancel_reservation rid user reason now db = (Raised e, db).
Proof.
  destruct (access_granted_or_refused rid user db) as [(r & Hr & Hp) | (e & He)].
  - destruct (decide (Reservation.can_be_cancelled r)) as [Hy|Hn].
    + left. unfold succeeds, outcome.
      rewrite (cancel_reservation_run db rid user reason now r) by assumption. eauto.
    + right. eexists. now apply (cancel_reservation_too_late rid user reason now db r).
  - right. exists e. now apply access_refusal_passed_on.
Qed.

Lemma mark_reservation_as_started_all_or_nothing (rid : Z) (user : User.t) (now : Z)
    (db : DB) :
  succeeds (ReservationService.mark_reservation_as_started rid user now) db \/
  exists e, ReservationService.mark_reservation_as_started rid user now db = (Raised e, db).
Proof.
  destruct (access_granted_or_refused rid user db) as [(r & Hr & Hp) | (e & He)].
  - destruct (decide (Reservation.status r = CONFIRMED)) as [Hy|Hn].
    + left. unfold succeeds, outcome.
      rewrite (mark_reservation_as_started_confirmed db rid user now r) by assumption.
      eauto.
    + right. eexists. now apply (mark_reservation_as_started_other db rid user now r).
  - right. exists e. now apply access_refusal_passed_on.
Qed.

(** X14: the errors of [cancel_reservation] and of
    [mark_reservation_as_started] are those of the access check (404 for an
    unknown reservation, 403 for a caller who is neither its passenger nor
    the driver of its trip), then 400 when the status does not allow the
    operation; whenever one of them raises, the database is unchanged. *)
Theorem cancel_and_start_errors (rid : Z) (user : User.t) (reason : string) (now : Z)
    (db : DB) :
  let cancel := ReservationService.cancel_reservation rid user reason now in
  let start := ReservationService.mark_reservation_as_started rid user now in
  (reservations db !! rid = None ->
   cancel db = (Raised (HTTPException HTTP_404_NOT_FOUND), db) /\
   start db = (Raised (HTTPException HTTP_404_NOT_FOUND), db)) /\
  (forall r t, reservations db !! rid = Some r ->
               trips db !! Reservation.trip_id r = Some t ->
               Reservation.passenger_id r <> User.id user ->
               Trip.driver_id t <> User.id user ->
               cancel db = (Raised (HTTPException HTTP_403_FORBIDDEN), db) /\
               start db = (Raised (HTTPException HTTP_403_FORBIDDEN), db)) /\
  (forall r, reservations db !! rid = Some r -> is_party user r db ->
             (~ Reservation.status r ∈ [PENDING; CONFIRMED; PAID] ->
              cancel db = (Raised (HTTPException HTTP_400_BAD_REQUEST), db)) /\
             (Reservation.status r <> CONFIRMED ->
              start db = (Raised (HTTPException HTTP_400_BAD_REQUEST), db))) /\
  (forall e, outcome cancel db = Raised e -> state_after cancel db = db) /\
  (forall e, outcome start db = Raised e -> state_after start db = db).
Proof.
  intros cancel start.
  split; [|split; [|split; [|split]]].
  - intros Hr.
    assert (He : ReservationService.get_reservation_by_id rid user db
                 = (Raised (HTTPException HTTP_404_NOT_FOUND), db))
      by (destruct (get_reservation_by_id_cases rid user db); same_rows; reflexivity).
    split; now apply access_refusal_passed_on.
  - intros r t Hr Ht Hp Hd.
    assert (He : ReservationService.get_reservation_by_id rid user db
                 = (Raised (HTTPException HTTP_403_FORBIDDEN), db)).
    { destruct (get_reservation_by_id_cases rid user db) as [r0 Hr0 Hp0| | |];
        same_rows; try reflexivity.
      exfalso. destruct Hp0 as [|(t0 & Ht0 & Hd0)]; [contradiction|].
      same_rows. contradiction. }
    split; now apply access_refusal_passed_on.
  - intros r Hr Hp. split; intros Hs.
    + now apply (cancel_reservation_too_late rid user reason now db r).
    + now apply (mark_reservation_as_started_other db rid user now r).
  - intros e. unfold outcome, state_after, cancel.
    destruct (cancel_reservation_all_or_nothing rid user reason now db)
      as [[a Ha] | [e0 ->]]; [|reflexivity].
    unfold outcome in Ha. rewrite Ha. discriminate.
  - intros e. unfold outcome, state_after, start.
    destruct (mark_reservation_as_started_all_or_nothing rid user now db)
      as [[a Ha] | [e0 ->]]; [|reflexivity].
    unfold outcome in Ha. rewrite Ha. discriminate.
Qed.

End CancelStartErrors.

(** ** Trips: publication, start and cancellation *)

Section TripLifecycle.
Import TripStatus.

(** X15: a successful [create_trip] (an eligible driver below the limit)
    inserts, under the next key, an ACTIVE trip of that driver whose
    [total_seats] and [available_seats] are both the requested number of
    seats, adds one to the driver's [trips_as_driver], and touches no
    reservation.  The new trip satisfies the capacity invariant exactly when
    at least one seat is offered, and under a fresh key the driver's number
    of active trips grows by exactly one. *)
Theorem create_trip_effect (trip_data : TripService.TripData) (driver : User.t) (db : DB) :
  User.can_create_trip driver ->
  (TripService.active_trips_count (User.id driver) db < 5)%nat ->
  let new_trip := Trip.mk (trip_seq db) (User.id driver)
                    (TripService.td_departure_datetime trip_data)
                    (TripService.td_available_seats trip_data)
                    (TripService.td_available_seats trip_data)
                    (TripService.td_price_per_seat trip_data) ACTIVE in
  let db' := mkDB (alter (fun u => User.set_trips_as_driver (User.trips_as_driver u + 1) u)
                         (User.id driver) (users db))
                  (<[trip_seq db := new_trip]> (trips db)) (reservations db)
                  (trip_seq db + 1) (reservation_seq db) in
  TripService.create_trip trip_data driver db = (Ok new_trip, db') /\
  (trip_inv new_trip <-> 0 < TripService.td_available_seats trip_data) /\
  (trips db !! trip_seq db = None ->
   TripService.active_trips_count (User.id driver) db'
   = S (TripService.active_trips_count (User.id driver) db)).
Proof.
  intros Hcan Hlt new_trip db'. split; [|split].
  - unfold TripService.create_trip, add_trip.
    unfold bind, get, modify, ret, raise, raise_if. simpl.
    rewrite decide_False by tauto. simpl.
    rewrite decide_False by lia. reflexivity.
  - unfold trip_inv, new_trip. simpl. rewrite elem_of_2. split.
    + intros [Hb Hs]. destruct (Hs (or_introl eq_refl)) as [_ Hz].
      destruct (decide (TripService.td_available_seats trip_data = 0)) as [H0|H0];
        [specialize (Hz H0); discriminate | lia].
    + intros Hpos. split; [lia|]. intros _. split; [discriminate | lia].
  - intros Hfresh. unfold TripService.active_trips_count, db'. simpl.
    rewrite map_filter_insert_True
      by (simpl; split; [reflexivity | rewrite elem_of_2; now left]).
    rewrite map_size_insert_None; [reflexivity|].
    apply map_lookup_filter_None. now left.
Qed.

Lemma create_trip_effect_witness :
  exists t db',
    TripService.create_trip four_seats rated_driver db_users_only = (Ok t, db') /\
    Trip.status t = ACTIVE /\ Trip.available_seats t = 4 /\ Trip.total_seats t = 4 /\
    TripService.active_trips_count 1 db' = 1%nat.
Proof.
  destruct (create_trip_effect four_seats rated_driver db_users_only)
    as (Hrun & _ & Hcount); [by_evaluation | by_evaluation |].
  eexists _, _. split; [exact Hrun|].
  split; [reflexivity|]. split; [reflexivity|]. split; [reflexivity|].
  exact (Hcount eq_refl).
Defined.

Lemma cancel_trip_run (db : DB) (tid : Z) (driver : User.t) (reason : string)
    (t : Trip.t) :
  trips db !! tid = Some t -> Trip.driver_id t = User.id driver ->
  Trip.status t ∈ [ACTIVE; FULL] ->
  TripService.cancel_trip tid driver reason db
  = (Ok (Trip.set_status CANCELLED t),
     set_trips (<[tid := Trip.set_status CANCELLED t]> (trips db)) db).
Proof.
  intros Ht Hd Hs. unfold TripService.cancel_trip, TripService.get_trip_by_id.
  exec; first [reflexivity | contradiction].
Qed.

Lemma mark_trip_as_started_run (db : DB) (tid : Z) (driver : User.t) (t : Trip.t) :
  trips db !! tid = Some t -> Trip.driver_id t = User.id driver ->
  Trip.status t ∈ [ACTIVE; FULL] ->
  TripService.mark_trip_as_started tid driver db
  = (Ok (Trip.set_status STARTED t),
     set_trips (<[tid := Trip.set_status STARTED t]> (trips db)) db).
Proof.
  intros Ht Hd Hs. unfold TripService.mark_trip_as_started, TripService.get_trip_by_id.
  exec; first [reflexivity | contradiction].
Qed.

Lemma trip_transition_refused (db : DB) (tid : Z) (driver : User.t) (reason : string)
    (t : Trip.t) :
  trips db !! tid = Some t ->
  (Trip.driver_id t <> User.id driver ->
   TripService.cancel_trip tid driver reason db
   = (Raised (HTTPException HTTP_403_FORBIDDEN), db) /\
   TripService.mark_trip_as_started tid driver db
   = (Raised (HTTPException HTTP_403_FORBIDDEN), db)) /\
  (Trip.driver_id t = User.id driver -> ~ Trip.status t ∈ [ACTIVE; FULL] ->
   TripService.cancel_trip tid driver reason db
   = (Raised (HTTPException HTTP_400_BAD_REQUEST), db) /\
   TripService.mark_trip_as_started tid driver db
   = (Raised (HTTPException HTTP_400_BAD_REQUEST), db)).
Proof.
  intros Ht.
  unfold TripService.cancel_trip, TripService.mark_trip_as_started,
    TripService.get_trip_by_id.
  split; [intros Hd | intros Hd Hs]; split; exec;
    first [reflexivity | contradiction].
Qed.

(** X16: cancelling and starting a trip.  For an existing trip both
    [cancel_trip] and [mark_trip_as_started] succeed exactly when the caller
    is its driver and its status is ACTIVE or FULL; they set the status to
    CANCELLED, respectively STARTED, and beside their own stamps change
    nothing else (no seat counter, no reservation, no user); a caller who is
    not the driver gets 403, the driver of a trip in another status gets 400,
    with nothing changed.  So each of them closes the trip to both: after
    either one, cancelling and starting are refused with 400. *)
Theorem trip_cancel_and_start (db : DB) (tid : Z) (driver : User.t) (reason : string)
    (t : Trip.t) :
  trips db !! tid = Some t ->
  let cancel := TripService.cancel_trip tid driver reason in
  let start := TripService.mark_trip_as_started tid driver in
  let open := Trip.driver_id t = User.id driver /\ Trip.status t ∈ [ACTIVE; FULL] in
  (succeeds cancel db <-> open) /\ (succeeds start db <-> open) /\
  (open ->
   cancel db = (Ok (Trip.set_status CANCELLED t),
                set_trips (<[tid := Trip.set_status CANCELLED t]> (trips db)) db) /\
   start db = (Ok (Trip.set_status STARTED t),
               set_trips (<[tid := Trip.set_status STARTED t]> (trips db)) db)) /\
  (Trip.driver_id t <> User.id driver ->
   cancel db = (Raised (HTTPException HTTP_403_FORBIDDEN), db) /\
   start db = (Raised (HTTPException HTTP_403_FORBIDDEN), db)) /\
  (Trip.driver_id t = User.id driver -> ~ Trip.status t ∈ [ACTIVE; FULL] ->
   cancel db = (Raised (HTTPException HTTP_400_BAD_REQUEST), db) /\
   start db = (Raised (HTTPException HTTP_400_BAD_REQUEST), db)) /\
  (open ->
   forall db1, db1 = state_after cancel db \/ db1 = state_after start db ->
     cancel db1 = (Raised (HTTPException HTTP_400_BAD_REQUEST), db1) /\
     start db1 = (Raised (HTTPException HTTP_400_BAD_REQUEST), db1)).
Proof.
  intros Ht cancel start open. subst cancel start.
  assert (Hok : open -> _ /\ _)
    by (intros [Hd Hs]; split;
        [exact (cancel_trip_run db tid driver reason t Ht Hd Hs)
        | exact (mark_trip_as_started_run db tid driver t Ht Hd Hs)]).
  destruct (trip_transition_refused db tid driver reason t Ht) as [H403 H400].
  assert (Hiff : forall A (m : M DB A),
            (open -> exists a db', m db = (Ok a, db')) ->
            (~ open -> exists e, m db = (Raised e, db)) ->
            (succeeds m db <-> open)).
  { intros A m Hy Hn. unfold succeeds, outcome. split.
    - intros [a Ha]. destruct (decide open) as [|Hno]; [assumption|].
      destruct (Hn Hno) as [e He]. rewrite He in Ha. discriminate.
    - intros Ho. destruct (Hy Ho) as (a & db' & ->). eauto. }
  assert (Hrefused : ~ open ->
            (exists e, TripService.cancel_trip tid driver reason db = (Raised e, db)) /\
            (exists e, TripService.mark_trip_as_started tid driver db = (Raised e, db))).
  { intros Hno. destruct (decide (Trip.driver_id t = User.id driver)) as [Hd|Hd].
    - destruct (H400 Hd) as [-> ->]; [unfold open in Hno; tauto | eauto].
    - destruct (H403 Hd) as [-> ->]. eauto. }
  split; [|split; [|split; [exact Hok | split; [exact H403 | split; [exact H400|]]]]].
  - apply Hiff; [intros Ho; destruct (Hok Ho) as [-> _]; eauto | apply Hrefused].
  - apply Hiff; [intros Ho; destruct (Hok Ho) as [_ ->]; eauto | apply Hrefused].
  - intros Ho db1 Hdb1. destruct (Hok Ho) as [Hc Hs]. destruct Ho as [Hd _].
    unfold state_after in Hdb1. rewrite Hc, Hs in Hdb1. simpl in Hdb1.
    destruct Hdb1 as [-> | ->].
    + apply (trip_transition_refused _ tid driver reason (Trip.set_status CANCELLED t));
        [apply lookup_insert_eq | exact Hd |].
      simpl. rewrite elem_of_2. intros [|]; discriminate.
    + apply (trip_transition_refused _ tid driver reason (Trip.set_status STARTED t));
        [apply lookup_insert_eq | exact Hd |].
      simpl. rewrite elem_of_2. intros [|]; discriminate.
Qed.

Lemma trip_cancel_and_start_witness :
  let db := db_trip_only 4 in
  exists t' db1,
    TripService.cancel_trip 1 rated_driver "panne" db = (Ok t', db1) /\
    Trip.status t' = CANCELLED /\ Trip.available_seats t' = 4 /\
    TripService.mark_trip_as_started 1 rated_driver db1
    = (Raised (HTTPException HTTP_400_BAD_REQUEST), db1).
Proof.
  destruct (trip_cancel_and_start (db_trip_only 4) 1 rated_driver "panne"
              (Trip.mk 1 1 1000 4 4 1000%float ACTIVE) eq_refl)
    as (_ & _ & Hok & _ & _ & Hclosed).
  assert (Hopen : Trip.driver_id (Trip.mk 1 1 1000 4 4 1000%float ACTIVE)
                  = User.id rated_driver /\
                  Trip.status (Trip.mk 1 1 1000 4 4 1000%float ACTIVE) ∈ [ACTIVE; FULL])
    by (split; [reflexivity | rewrite elem_of_2; now left]).
  destruct (Hok Hopen) as [Hc _].
  eexists _, _. split; [exact Hc|]. split; [reflexivity|]. split; [reflexivity|].
  refine (proj2 (Hclosed Hopen _ (or_introl _))).
  unfold state_after. now rewrite Hc.
Defined.

(** X17: [book_seat] never books.  [is_bookable] is [False] on a trip that
    is not ACTIVE or has no seat left, and otherwise the clause comparing the
    departure with [func.now()], which has no truth value.  So [book_seat]
    raises [TypeError] exactly when the trip is ACTIVE with a seat left and
    at least the requested seats, answers [False] in every other case, never
    answers [True] and never changes the trip. *)
Theorem book_seat_never_books (count : Z) (t : Trip.t) :
  (Trip.is_bookable t = Trip.PyBool false <-> ~ open_for_booking t) /\
  (Trip.is_bookable t = Trip.PyClause (Trip.DepartsAfterNow (Trip.departure_datetime t))
   <-> open_for_booking t) /\
  (Trip.book_seat count t = (Raised TypeError, t) <->
   Trip.available_seats t >= count /\ open_for_booking t) /\
  (Trip.book_seat count t = (Ok false, t) <->
   ~ (Trip.available_seats t >= count /\ open_for_booking t)) /\
  outcome (Trip.book_seat count) t <> Ok true /\
  state_after (Trip.book_seat count) t = t.
Proof.
  split; [|split; [|split; [|split; [|split]]]].
  - unfold Trip.is_bookable, Trip.py_and, open_for_booking.
    repeat case_bool_decide; split; intros Hb; first [reflexivity | discriminate | tauto].
  - unfold Trip.is_bookable, Trip.py_and, open_for_booking.
    repeat case_bool_decide; split; intros Hb; first [reflexivity | discriminate | tauto].
  - destruct (book_seat_cases count t) as [(Hge & Hopen & ->) | (Hno & ->)].
    + tauto.
    + split; [discriminate | tauto].
  - destruct (book_seat_cases count t) as [(Hge & Hopen & ->) | (Hno & ->)].
    + split; [discriminate | tauto].
    + tauto.
  - apply book_seat_changes_nothing.
  - apply book_seat_changes_nothing.
Qed.

End TripLifecycle.

(** ** The state machine of the Reservation model *)

Section ModelMethods.
Import ReservationStatus.

Ltac run_model :=
  unfold run_method, on_self, Reservation.confirm, Reservation.cancel,
    Reservation.mark_as_paid, Reservation.start_trip, Reservation.complete_trip,
    Reservation.rate_driver, Reservation.rate_passenger,
    Reservation.can_be_cancelled, Reservation.can_be_paid, Reservation.can_be_rated;
  unfold raise_if, when, bind, ret, raise, get, modify; simpl;
  repeat (case_decide; simpl).

(** X18: the methods of the Reservation model never raise.  A method that
    answers [False] has changed nothing; one that answers [True] has moved
    the status along its own edge of
    PENDING -> CONFIRMED -> PAID -> STARTED -> COMPLETED (ratings staying at
    COMPLETED), or from PENDING, CONFIRMED or PAID to the cancelled status
    named by [cancelled_by], and has kept the booking data (trip, passenger,
    seats, prices).  No method ever assigns NO_SHOW or PENDING. *)
Theorem model_methods_state_machine (m : Method) (now : Z)
    (r : Reservation.t) (pc : Reservation.PaymentColumns) :
  exists b r' pc',
    run_method m now (r, pc) = (Ok b, (r', pc')) /\
    (b = false -> r' = r /\ pc' = pc) /\
    (b = true ->
     method_step m (Reservation.status r) (Reservation.status r') /\
     Reservation.trip_id r' = Reservation.trip_id r /\
     Reservation.passenger_id r' = Reservation.passenger_id r /\
     Reservation.number_of_seats r' = Reservation.number_of_seats r /\
     Reservation.total_price r' = Reservation.total_price r /\
     Reservation.price_per_seat r' = Reservation.price_per_seat r /\
     Reservation.platform_fee r' = Reservation.platform_fee r) /\
    (Reservation.status r' ∈ [NO_SHOW; PENDING] ->
     Reservation.status r' = Reservation.status r).
Proof.
  destruct m; run_model; eexists _, _, _; (split; [reflexivity|]);
    (split; [intros Hb; first [discriminate | split; reflexivity] |]);
    (split; [intros Hb; first [discriminate | simpl; repeat split; tauto] |]);
    simpl; rewrite ?elem_of_cons; intros Hin;
    first [reflexivity | (destruct Hin as [Hin|[Hin|Hin]];
                          first [discriminate | now apply elem_of_nil in Hin])].
Qed.

(** X19: the happy path of the model.  From a PENDING reservation whose
    payment is pending, [confirm], [mark_as_paid], [start_trip] and
    [complete_trip], called in this order, all answer [True] and leave a
    COMPLETED reservation whose payment is COMPLETED, with the four stamps
    set and the transaction id and payment method recorded when given. *)
Theorem model_happy_path (r : Reservation.t) (pc : Reservation.PaymentColumns)
    (transaction_id : string) (method : PaymentMethod.t) (n1 n2 n3 n4 : Z) :
  Reservation.status r = PENDING ->
  Reservation.payment_status r = PaymentStatus.PENDING ->
  transaction_id <> EmptyString ->
  exists r' pc',
    (b1 <- run_method MConfirm n1 ;;
     b2 <- run_method (MMarkAsPaid (Some transaction_id) (Some method)) n2 ;;
     b3 <- run_method MStartTrip n3 ;;
     b4 <- run_method MCompleteTrip n4 ;;
     ret [b1; b2; b3; b4]) (r, pc)
    = (Ok [true; true; true; true], (r', pc')) /\
    Reservation.status r' = COMPLETED /\
    Reservation.payment_status r' = PaymentStatus.COMPLETED /\
    Reservation.confirmed_at r' = Some n1 /\
    Reservation.paid_at pc' = Some n2 /\
    Reservation.actual_pickup_time r' = Some n3 /\
    Reservation.actual_dropoff_time r' = Some n4 /\
    Reservation.payment_transaction_id pc' = Some transaction_id /\
    Reservation.payment_method pc' = Some method /\
    Reservation.number_of_seats r' = Reservation.number_of_seats r /\
    Reservation.total_price r' = Reservation.total_price r.
Proof.
  intros Hs Hp Htx. run_model; try congruence; try tauto;
    try (exfalso; eauto; fail).
  eexists _, _. split; [reflexivity|]. simpl. repeat split.
Qed.

Lemma model_happy_path_witness :
  exists r' pc',
    (b1 <- run_method MConfirm 20 ;;
     b2 <- run_method (MMarkAsPaid (Some "TX-1"%string) (Some PaymentMethod.MOBILE_MONEY)) 30 ;;
     b3 <- run_method MStartTrip 40 ;;
     b4 <- run_method MCompleteTrip 50 ;;
     ret [b1; b2; b3; b4])
      (reservation_1 2 PENDING, Reservation.mkPaymentColumns (Some PaymentMethod.CASH) None None)
    = (Ok [true; true; true; true], (r', pc')) /\
    Reservation.status r' = COMPLETED /\
    Reservation.payment_method pc' = Some PaymentMethod.MOBILE_MONEY.
Proof.
  destruct (model_happy_path (reservation_1 2 PENDING)
              (Reservation.mkPaymentColumns (Some PaymentMethod.CASH) None None)
              "TX-1"%string PaymentMethod.MOBILE_MONEY 20 30 40 50 eq_refl eq_refl)
    as (r' & pc' & Hrun & Hst & _ & _ & _ & _ & _ & _ & Hm & _); [discriminate|].
  exists r', pc'. split; [exact Hrun|]. split; [exact Hst | exact Hm].
Defined.

End ModelMethods.

(** ** A whole ride *)

Section WholeRide.
Import ReservationStatus.

Lemma persisted_ok {A : Type} (m : M DB A) (db db' : DB) (a : A) :
  m db = (Ok a, db') -> persisted m db = db'.
Proof. unfold persisted. now intros ->. Qed.

(** X20: a whole ride through the services.  A PENDING reservation that
    fits on the trip, accepted by the driver, started by the passenger,
    completed by the driver and rated by the passenger: the four requests
    succeed one after the other (there is no payment step on this path) and
    leave the reservation COMPLETED with the rating stored, the trip with
    the seats taken, the passenger with one more trip and the driver with one
    more rating. *)
Theorem whole_ride (db : DB) (rid : Z) (driver passenger : User.t) (rating : Z)
    (n1 n2 n3 : Z) (r : Reservation.t) (t : Trip.t) (d p : User.t) :
  reservations db !! rid = Some r -> trips db !! Reservation.trip_id r = Some t ->
  Reservation.status r = PENDING ->
  Trip.driver_id t = User.id driver -> Reservation.passenger_id r = User.id passenger ->
  User.id passenger <> User.id driver ->
  Reservation.number_of_seats r <= Trip.available_seats t ->
  users db !! User.id driver = Some d -> users db !! User.id passenger = Some p ->
  User.total_ratings d + 1 <> 0 ->
  let db' := run_calls [(Confirm rid driver true None, n1);
                        (Start rid passenger, n2);
                        (Complete rid driver, n3);
                        (Rate rid passenger rating None, n3)] db in
  (exists r', reservations db' !! rid = Some r' /\
              Reservation.status r' = COMPLETED /\
              Reservation.driver_rating r' = Some rating /\
              Reservation.confirmed_at r' = Some n1 /\
              Reservation.actual_pickup_time r' = Some n2 /\
              Reservation.actual_dropoff_time r' = Some n3) /\
  trips db' !! Reservation.trip_id r = Some (seats_taken r t) /\
  users db' !! User.id passenger
  = Some (User.set_trips_as_passenger (User.trips_as_passenger p + 1) p) /\
  users db' !! User.id driver = Some (with_rating rating d).
Proof.
  intros Hr Ht Hs Hd Hp Hne Hfit Hud Hup Hz db'.
  assert (Hdrv : Trip.driver_id (seats_taken r t) = User.id driver)
    by (unfold seats_taken; simpl; case_decide; assumption).
  (* accepted *)
  set (r1 := confirmed None n1 r).
  assert (Hr1 : Reservation.trip_id r1 = Reservation.trip_id r /\
                Reservation.passenger_id r1 = Reservation.passenger_id r /\
                Reservation.status r1 = CONFIRMED /\
                Reservation.confirmed_at r1 = Some n1) by (repeat split).
  destruct Hr1 as (Ht1 & Hp1 & Hs1 & Hc1).
  assert (H1 : persisted (run_call (Confirm rid driver true None) n1) db
               = mkDB (users db) (<[Reservation.trip_id r := seats_taken r t]> (trips db))
                      (<[rid := r1]> (reservations db)) (trip_seq db) (reservation_seq db)).
  { eapply persisted_ok. simpl.
    apply (confirm_reservation_accepted db rid driver None n1 r t Hr Ht).
    unfold confirm_guards. repeat split; [assumption.. | lia]. }
  (* started *)
  set (db1 := mkDB _ _ _ _ _) in H1.
  set (r2 := started n2 r1).
  assert (H2 : persisted (run_call (Start rid passenger) n2) db1
               = set_reservations (<[rid := r2]> (reservations db1)) db1).
  { eapply persisted_ok. simpl.
    apply (mark_reservation_as_started_confirmed db1 rid passenger n2 r1);
      [apply lookup_insert_eq | left; congruence | exact Hs1]. }
  (* completed *)
  set (db2 := set_reservations _ db1) in H2.
  set (r3 := completed n3 r2).
  assert (H3 : persisted (run_call (Complete rid driver) n3) db2
               = mkDB (<[Reservation.passenger_id r2 :=
                           User.set_trips_as_passenger (User.trips_as_passenger p + 1) p]>
                         (users db2))
                      (trips db2) (<[rid := r3]> (reservations db2))
                      (trip_seq db2) (reservation_seq db2)).
  { eapply persisted_ok. simpl.
    apply (mark_reservation_as_completed_run rid driver n3 db2 r2 p).
    - unfold db2. simpl. apply lookup_insert_eq.
    - right. exists (seats_taken r t). split; [|exact Hdrv].
      unfold db2, db1. simpl. apply lookup_insert_eq.
    - reflexivity.
    - unfold db2, db1. simpl. rewrite Hp. exact Hup. }
  (* rated *)
  set (db3 := mkDB _ _ _ _ _) in H3.
  assert (Htarget : rating_target passenger r3 (seats_taken r t) = User.id driver).
  { unfold rating_target. rewrite decide_True by (simpl; exact Hp). exact Hdrv. }
  assert (H4 : persisted (run_call (Rate rid passenger rating None) n3) db3
               = mkDB (<[User.id driver := with_rating rating d]> (users db3)) (trips db3)
                      (<[rid := rated passenger rating None r3]> (reservations db3))
                      (trip_seq db3) (reservation_seq db3)).
  { eapply persisted_ok. simpl. rewrite <- Htarget.
    apply (rate_trip_run db3 rid passenger rating None r3 (seats_taken r t) d).
    - unfold db3. simpl. apply lookup_insert_eq.
    - unfold db3, db2, db1. simpl. apply lookup_insert_eq.
    - left. simpl. exact Hp.
    - reflexivity.
    - rewrite Htarget. unfold db3, db2, db1. simpl.
      rewrite lookup_insert_ne by (rewrite Hp; exact Hne). exact Hud.
    - exact Hz. }
  unfold db'. cbn [run_calls]. rewrite H1, H2, H3, H4. simpl.
  split; [|split; [|split]].
  - exists (rated passenger rating None r3). rewrite lookup_insert_eq.
    split; [reflexivity|].
    unfold rated. rewrite decide_True by (simpl; exact Hp). repeat split.
  - apply lookup_insert_eq.
  - rewrite lookup_insert_ne by congruence. rewrite <- Hp. apply lookup_insert_eq.
  - apply lookup_insert_eq.
Qed.

Lemma whole_ride_witness :
  let db' := run_calls [(Confirm 1 rated_driver true None, 20);
                        (Start 1 passenger_2, 30);
                        (Complete 1 rated_driver, 40);
                        (Rate 1 passenger_2 5 None, 40)]
               (db_with 4 TripStatus.ACTIVE 2 PENDING) in
  (exists r', reservations db' !! 1 = Some r' /\ Reservation.status r' = COMPLETED /\
              Reservation.driver_rating r' = Some 5) /\
  (User.total_ratings <$> users db' !! 1) = Some 3.
Proof.
  destruct (whole_ride (db_with 4 TripStatus.ACTIVE 2 PENDING) 1 rated_driver passenger_2
              5 20 30 40 (reservation_1 2 PENDING)
              (Trip.mk 1 1 1000 4 4 1000%float TripStatus.ACTIVE) rated_driver passenger_2)
    as ((r' & Hr' & Hst & Hrt & _) & _ & _ & Hdrv);
    try reflexivity; try (simpl; lia).
  cbv zeta. split.
  - exists r'. split; [exact Hr' | split; [exact Hst | exact Hrt]].
  - exact (f_equal (fmap User.total_ratings) Hdrv).
Defined.

End WholeRide.
